(** * Scoring core of the LLM psychometric-assessment pipelines

    Shallow embedding of:
    - [AdaptiveConsensusAlgorithm] (local_batch_production/adaptive_consensus_algorithm.py),
      the round dispatcher and the "simple" major-disagreement handler;
    - [_get_additional_scores] of the improved transparent pipeline, the
      request_more capability handed to the consensus engine;
    - [AdaptiveReliabilityCalculator] (adaptive_reliability_calculator.py);
    - [_expand_consensus_score_to_all_dimensions_original] and
      [calculate_big5_scores] of improved_transparent_pipeline.py;
    - [infer_mbti_type] of smart_transparent_pipeline.py;
    - the extended major-disagreement path of the consensus engine
      ([_handle_major_disagreement], [_handle_still_divided],
      [_remove_max_bias]) and its [_calculate_quality_metrics];
    - the response parsing, per-model evaluation, adaptive-consensus driver
      and improved expansion of the improved transparent pipeline, and its
      [_calculate_mbti_type];
    - dispute detection and resolution, final scores, reliability and
      Big Five averages of the smart transparent pipeline.

    Python floats are modelled as exact rationals (Q) or reals (R, where
    the code takes a square root); Python's [round] is modelled as
    round-half-to-even on the exact value. *)

From Stdlib Require Import ZArith QArith Qround Qminmax Qabs List String Ascii Bool Lia Permutation Lqa.
From Stdlib Require Import Reals Lra.
Import ListNotations.

(* ------------------------------------------------------------------ *)
(** ** Consensus engine *)

Module Consensus.

Open Scope Z_scope.

(** [sorted(...)], as used by [statistics.median]. *)
Fixpoint insert_sorted (x : Z) (l : list Z) : list Z :=
  match l with
  | [] => [x]
  | y :: t => if x <=? y then x :: l else y :: insert_sorted x t
  end.

Fixpoint sort (l : list Z) : list Z :=
  match l with
  | [] => []
  | x :: t => insert_sorted x (sort t)
  end.

(** [max(scores)] and [min(scores)]; Python raises on an empty list. *)
Definition list_max (l : list Z) : option Z :=
  match l with [] => None | x :: t => Some (fold_left Z.max t x) end.

Definition list_min (l : list Z) : option Z :=
  match l with [] => None | x :: t => Some (fold_left Z.min t x) end.

(** [statistics.mean]: sum divided by length (never called on []). *)
Definition mean (l : list Z) : Q :=
  Qdiv (inject_Z (fold_left Z.add l 0)) (inject_Z (Z.of_nat (List.length l))).

(** [statistics.median]: middle element of the sorted list, or the
    average of the two middle ones for an even length. *)
Definition median (l : list Z) : Q :=
  let d := sort l in
  let n := List.length d in
  let hi := nth (n / 2) d 0 in
  let lo := nth (n / 2 - 1) d 0 in
  if Nat.odd n then inject_Z hi
  else Qdiv (Qplus (inject_Z lo) (inject_Z hi)) 2.

(** [any(count > 1 for count in Counter(scores).values())] *)
Definition has_repeat (l : list Z) : bool :=
  existsb (fun x => (1 <? count_occ Z.eq_dec l x)%nat) l.

(** Python [int(x)] on a number: truncation toward zero. *)
Definition trunc (q : Q) : Z := Z.quot (Qnum q) (Zpos (Qden q)).

(** Python [round(x)]: round half to even. *)
Definition round_half_even (q : Q) : Z :=
  let f := Qfloor q in
  let d := (q - inject_Z f)%Q in
  if negb (Qle_bool (1 # 2) d) then f
  else if negb (Qle_bool d (1 # 2)) then f + 1
  else if Z.even f then f else f + 1.

(** Python [round(x, 2)]. *)
Definition round2 (q : Q) : Q :=
  Qdiv (inject_Z (round_half_even (Qmult q 100))) 100.

Definition max_evaluators : nat := 7.
Definition allowed_scores : list Z := [1; 3; 5].

Definition allowed (s : Z) : bool := (s =? 1) || (s =? 3) || (s =? 5).

(** The result dictionary of [_create_result]; [score_distribution] and
    [quality_metrics] are derived from [final_scores] and left out. *)
Record consensus_result := {
  consensus_score : Q;
  final_scores : list Z;
  evaluator_count : nat;
  consensus_method : string;
  processing_rounds : nat
}.

Definition create_result (scores : list Z) (cs : Q) (method : string)
    (round_num : nat) : consensus_result :=
  {| consensus_score := round2 cs;
     final_scores := scores;
     evaluator_count := List.length scores;
     consensus_method := method;
     processing_rounds := round_num |}.

(** [_handle_minor_disagreement]: both branches report the mean. *)
Definition handle_minor_disagreement (scores : list Z) : Q * string :=
  if (List.length (nodup Z.eq_dec scores) =? 2)%nat
  then (mean scores, "minor_consensus"%string)
  else (mean scores, "minor_consensus"%string).

(** The consolidation step of [_handle_major_disagreement_simple]. *)
Definition consolidate (scores : list Z) : Q :=
  if has_repeat scores then median scores else mean scores.

(** One round of [_adaptive_consensus_process], up to the recursive call. *)
Inductive round_outcome :=
  | RStop (cs : Q) (method : string)
  | RMajor (consolidated : Q)
  | RAbnormal (diff : Z)
  | REmpty.

Definition round_step (scores : list Z) : round_outcome :=
  match list_max scores, list_min scores with
  | Some mx, Some mn =>
      let diff := mx - mn in
      if diff =? 0 then RStop (inject_Z mx) "perfect_consensus"
      else if diff <=? 2 then
        let '(cs, m) := handle_minor_disagreement scores in RStop cs m
      else if diff =? 4 then RMajor (consolidate scores)
      else RAbnormal diff
  | _, _ => REmpty
  end.

Inductive error :=
  | InputError
  | AbnormalDiff (d : Z)
  | EmptyScores
  | EvaluatorFailure.

Inductive outcome :=
  | Done (r : consensus_result)
  | Raised (e : error)
  | OutOfFuel (calls : nat) (scores : list Z).

(** The [get_additional_scores] callable: its [k]-th call with the
    requested count; [None] when the call raises. *)
Definition requester := nat -> nat -> option (list Z).

(** [_adaptive_consensus_process], with fuel bounding the recursion;
    [k] counts the calls made to [get_additional_scores]. *)
Fixpoint process (fuel : nat) (req : requester) (k : nat) (scores : list Z)
    (round_num : nat) : outcome :=
  match fuel with
  | O => OutOfFuel k scores
  | S f =>
      match round_step scores with
      | RStop cs m => Done (create_result scores cs m round_num)
      | RMajor c =>
          match req k 2%nat with
          | None => Raised EvaluatorFailure
          | Some new_scores =>
              process f req (S k) (trunc c :: new_scores) (S round_num)
          end
      | RAbnormal d => Raised (AbnormalDiff d)
      | REmpty => Raised EmptyScores
      end
  end.

(** [adaptive_consensus], the entry point. *)
Definition adaptive_consensus (fuel : nat) (req : requester)
    (initial_scores : list Z) : outcome :=
  if negb (List.length initial_scores =? 3)%nat then Raised InputError
  else if negb (forallb allowed initial_scores) then Raised InputError
  else process fuel req 0 initial_scores 1.

(** Judgments obtained after [calls] calls of two each. *)
Definition judgments_obtained (calls : nat) : nat := (3 + 2 * calls)%nat.

(** A request_more that always answers [1, 5]. *)
Definition req_1_5 : requester := fun _ _ => Some [1; 5].

(** A request_more answering three scores, then two. *)
Definition req_over : requester :=
  fun k _ => match k with O => Some [1; 5; 5] | _ => Some [1; 1] end.

(** The lists the dispatcher reaches: each step is a major-disagreement
    round followed by a call of request_more. *)
Inductive reaches (req : requester) : nat -> list Z -> nat -> list Z -> Prop :=
  | reaches_refl k s : reaches req k s k s
  | reaches_step k s c new_scores k' s' :
      round_step s = RMajor c ->
      req k 2%nat = Some new_scores ->
      reaches req (S k) (trunc c :: new_scores) k' s' ->
      reaches req k s k' s'.

(** The spread of a list is 0, 2 or 4. *)
Definition spread_ok (s : list Z) : bool :=
  match list_max s, list_min s with
  | Some a, Some b => let d := a - b in (d =? 0) || (d =? 2) || (d =? 4)
  | _, _ => false
  end.

(** A round on [s] stops or consolidates into a scale value. *)
Definition round_ok (s : list Z) : bool :=
  spread_ok s &&
  match round_step s with
  | RStop _ _ => true
  | RMajor c => allowed (trunc c)
  | _ => false
  end.

(** A list of one to three scale values. *)
Definition small_valid (s : list Z) : Prop :=
  forallb allowed s = true /\ (1 <= List.length s <= 3)%nat.

End Consensus.

(* ------------------------------------------------------------------ *)
(** ** The improved transparent pipeline: request_more and dimensions *)

Module Pipeline.

Import Consensus.
Open Scope Z_scope.

(** The five standard dimension names, in the order the code lists them. *)
Definition dimensions : list string :=
  ["openness_to_experience"; "conscientiousness"; "extraversion";
   "agreeableness"; "neuroticism"]%string.

(** [dimension_map.get(name)] *)
Definition dimension_map (name : string) : option string :=
  if String.eqb name "Openness to Experience" then Some "openness_to_experience"%string
  else if String.eqb name "Conscientiousness" then Some "conscientiousness"%string
  else if String.eqb name "Extraversion" then Some "extraversion"%string
  else if String.eqb name "Agreeableness" then Some "agreeableness"%string
  else if String.eqb name "Neuroticism" then Some "neuroticism"%string
  else None.

(** [_get_primary_dimension]: [dimension_map.get(d, d)] on the item's
    [question_data['dimension']] (default ''). *)
Definition get_primary_dimension (question_dimension : string) : string :=
  match dimension_map question_dimension with
  | Some d => d
  | None => question_dimension
  end.

(** [dict.get(key, default)] on a dict with integer values. *)
Fixpoint dict_get (key : string) (d : list (string * Z)) (default : Z) : Z :=
  match d with
  | [] => default
  | (k, v) :: t => if String.eqb k key then v else dict_get key t default
  end.

(** "Make sure the score is 1, 3 or 5". *)
Definition snap_score (s : Z) : Z :=
  if allowed s then s
  else if s <=? 2 then 1
  else if 4 <=? s then 5
  else 3.

(** One call of [evaluate_single_question]: the parsed per-dimension
    scores, or [None] when it raises [RuntimeError] (all models failed). *)
Definition evaluation := option (list (string * Z)).

(** [_get_additional_scores]: the [i]-th evaluation of the loop; a raised
    evaluation is replaced by the neutral score 3. *)
Definition get_additional_scores (evaluate : nat -> evaluation)
    (primary : string) (needed_count : nat) : list Z :=
  map (fun i =>
         match evaluate i with
         | None => 3
         | Some scores => snap_score (dict_get primary scores 3)
         end)
      (seq 0 needed_count).

(** The [lambda needed_count: self._get_additional_scores(...)] handed to
    [adaptive_consensus] by [_get_adaptive_consensus]; [evaluate k i] is
    the [i]-th evaluation made in the [k]-th call, each a fresh model call
    that may answer differently. *)
Definition pipeline_requester (evaluate : nat -> nat -> evaluation)
    (question_dimension : string) : requester :=
  fun k needed_count =>
    Some (get_additional_scores (evaluate k)
            (get_primary_dimension question_dimension) needed_count).

(** An evaluator whose every call raises. *)
Definition evaluate_failing : nat -> evaluation := fun _ => None.

End Pipeline.

(* ------------------------------------------------------------------ *)
(** ** Reliability calculator *)

Module Reliability.

Open Scope R_scope.

Definition consensus_quality_weight : R := 0.4.
Definition evaluator_diversity_weight : R := 0.3.
Definition processing_efficiency_weight : R := 0.2.
Definition final_agreement_weight : R := 0.1.

(** [max(l) - min(l)]; [None] where Python raises on an empty list. *)
Definition range_of (l : list Z) : option Z :=
  match Consensus.list_max l, Consensus.list_min l with
  | Some a, Some b => Some (a - b)%Z
  | _, _ => None
  end.

(** [method_scores.get(consensus_method, 0.3)] *)
Definition method_scores (m : string) : R :=
  if String.eqb m "perfect_consensus" then 1.0
  else if String.eqb m "minor_consensus" then 0.8
  else if String.eqb m "median_consensus" then 0.7
  else if String.eqb m "average_consensus" then 0.6
  else if String.eqb m "extended_consensus" then 0.5
  else if String.eqb m "max_divergence_consensus" then 0.4
  else 0.3.

(** [method_efficiency.get(consensus_method, 0.5)] *)
Definition method_efficiency (m : string) : R :=
  if String.eqb m "perfect_consensus" then 1.0
  else if String.eqb m "minor_consensus" then 0.9
  else if String.eqb m "median_consensus" then 0.8
  else if String.eqb m "average_consensus" then 0.7
  else if String.eqb m "extended_consensus" then 0.6
  else if String.eqb m "max_divergence_consensus" then 0.5
  else 0.5.

(** The score-improvement adjustment of [_assess_consensus_quality]. *)
Definition quality_adjustment (original_range final_range : Z) : R :=
  if (0 <? original_range)%Z then
    let improvement :=
      (IZR original_range - IZR final_range) / IZR original_range in
    Rmin (improvement * 0.2) 0.2
  else 0.

Definition assess_consensus_quality (original_range final_range : Z)
    (consensus_method : string) : R :=
  Rmin (method_scores consensus_method
        + quality_adjustment original_range final_range) 1.0.

(** [len(set(l)) / len(l)] *)
Definition distinct_ratio (l : list Z) : R :=
  INR (List.length (nodup Z.eq_dec l)) / INR (List.length l).

Definition assess_evaluator_diversity (original_scores final_scores : list Z)
    (processing_rounds : Z) : R :=
  let original_diversity := distinct_ratio original_scores in
  let final_diversity := distinct_ratio final_scores in
  let round_efficiency :=
    Rmax 0.0 (1.0 - (IZR processing_rounds - 1) * 0.2) in
  0.4 * original_diversity + 0.4 * final_diversity + 0.2 * round_efficiency.

Definition assess_processing_efficiency (processing_rounds : Z)
    (consensus_method : string) : R :=
  let round_efficiency :=
    if (processing_rounds =? 1)%Z then 1.0
    else if (processing_rounds =? 2)%Z then 0.8
    else Rmax 0.4 (1.0 - (IZR processing_rounds - 2) * 0.2) in
  (round_efficiency + method_efficiency consensus_method) / 2.

Definition sum_R (l : list Z) : R := fold_left (fun acc x => acc + IZR x) l 0.

(** [statistics.stdev]: sample standard deviation. *)
Definition stdev (l : list Z) : R :=
  let n := INR (List.length l) in
  let mu := sum_R l / n in
  sqrt (fold_left (fun acc x => acc + (IZR x - mu) ^ 2) l 0 / (n - 1)).

(** [max(Counter(l).values())] *)
Definition mode_count (l : list Z) : nat :=
  fold_left (fun m x => Nat.max m (count_occ Z.eq_dec l x)) l 0%nat.

Definition assess_final_agreement (final_scores : list Z) : R :=
  if (List.length final_scores <? 2)%nat then 1.0
  else
    let std_dev := stdev final_scores in
    let max_possible_std := 2.0 in
    let consistency_score := Rmax 0.0 (1.0 - std_dev / max_possible_std) in
    let mode_ratio :=
      INR (mode_count final_scores) / INR (List.length final_scores) in
    let score_range :=
      match range_of final_scores with Some r => r | None => 0%Z end in
    let range_score := Rmax 0.0 (1.0 - IZR score_range / 4.0) in
    0.4 * consistency_score + 0.4 * mode_ratio + 0.2 * range_score.

(** Python [round(x, 3)]: round half to even at the third decimal. *)
Definition Rround_half_even (x : R) : Z :=
  let f := Int_part x in
  let d := x - IZR f in
  if Rlt_dec d (1 / 2) then f
  else if Rlt_dec (1 / 2) d then (f + 1)%Z
  else if Z.even f then f else (f + 1)%Z.

Definition round3 (x : R) : R := IZR (Rround_half_even (x * 1000)) / 1000.

Definition overall_of (cq ed pe fa : R) : R :=
  consensus_quality_weight * cq + evaluator_diversity_weight * ed
  + processing_efficiency_weight * pe + final_agreement_weight * fa.

Record reliability_metrics := {
  overall_reliability : R;
  consensus_quality : R;
  evaluator_diversity : R;
  processing_efficiency : R;
  final_agreement : R
}.

(** The four unrounded terms, in the order the code computes them;
    [None] where Python raises on an empty score list. *)
Definition raw_terms (r : Consensus.consensus_result) (original_scores : list Z)
    : option (R * R * R * R) :=
  let final_scores := Consensus.final_scores r in
  let consensus_method := Consensus.consensus_method r in
  let rounds := Z.of_nat (Consensus.processing_rounds r) in
  match range_of original_scores, range_of final_scores with
  | Some r0, Some rf =>
      Some (assess_consensus_quality r0 rf consensus_method,
            assess_evaluator_diversity original_scores final_scores rounds,
            assess_processing_efficiency rounds consensus_method,
            assess_final_agreement final_scores)
  | _, _ => None
  end.

(** [calculate_adaptive_reliability] (the [detailed_analysis] entry is
    descriptive and left out). *)
Definition calculate_adaptive_reliability (r : Consensus.consensus_result)
    (original_scores : list Z) : option reliability_metrics :=
  match raw_terms r original_scores with
  | Some (cq, ed, pe, fa) =>
      Some {| overall_reliability := round3 (overall_of cq ed pe fa);
              consensus_quality := round3 cq;
              evaluator_diversity := round3 ed;
              processing_efficiency := round3 pe;
              final_agreement := round3 fa |}
  | None => None
  end.

End Reliability.

(* ------------------------------------------------------------------ *)
(** ** Dimension expansion (neutral fill) *)

Module Expand.

Import Consensus Pipeline.
Open Scope Z_scope.

(** [_expand_consensus_score_to_all_dimensions_original]: the primary
    dimension gets [int(round(consensus_score))] forced onto {1,3,5}, every
    other dimension the neutral 3; the dict in insertion order. *)
Definition expand_original (consensus_score : Q) (question_dimension : string)
    : list (string * Z) :=
  let primary_dimension := get_primary_dimension question_dimension in
  map (fun dimension =>
         (dimension,
          if String.eqb dimension primary_dimension
          then snap_score (round_half_even consensus_score)
          else 3))
      dimensions.

(** The scale value nearest to [q], ties (2 and 4) going to the extreme. *)
Definition nearest_scale_value (q : Q) : Z :=
  if Qle_bool q 2 then 1
  else if Qlt_le_dec q 4 then 3 else 5.

End Expand.

(* ------------------------------------------------------------------ *)
(** ** Profile aggregation *)

Module Aggregate.

Import Pipeline.
Open Scope Q_scope.

(** A value of the [final_adjusted_scores] dict: a number, or anything
    else (skipped by the [isinstance] test). *)
Inductive pyval := VNum (q : Q) | VOther.

Fixpoint assoc {A} (key : string) (d : list (string * A)) : option A :=
  match d with
  | [] => None
  | (k, v) :: t => if String.eqb k key then Some v else assoc key t
  end.

(** One entry of [question_results]: its [final_adjusted_scores] and its
    [question_info['question_data']['dimension']] (default ''). *)
Record question_result := {
  final_adjusted_scores : list (string * pyval);
  question_dimension : string
}.

(** [dimension_map.get(primary_dimension, '')] *)
Definition standard_primary_dimension (r : question_result) : string :=
  match dimension_map (question_dimension r) with
  | Some d => d
  | None => ""%string
  end.

Definition weight_of (dimension standard_primary : string) : Q :=
  if String.eqb dimension standard_primary && negb (String.eqb standard_primary "")
  then 0.7 else 0.075.

(** [scores_by_dimension[dimension]]: the (score, weight) pairs. *)
Definition weighted_scores (rs : list question_result) (dimension : string)
    : list (Q * Q) :=
  flat_map (fun r =>
              match assoc dimension (final_adjusted_scores r) with
              | Some (VNum s) => [(s, weight_of dimension (standard_primary_dimension r))]
              | _ => []
              end) rs.

(** Python [sum]: left to right from 0. *)
Definition sum_Q (l : list Q) : Q := fold_left Qplus l 0.

Definition weighted_average (ws : list (Q * Q)) : Q :=
  match ws with
  | [] => 3
  | _ =>
      let weighted_sum := sum_Q (map (fun e => fst e * snd e) ws) in
      let total_weight_sum := sum_Q (map snd ws) in
      if Qle_bool total_weight_sum 0 then 3
      else weighted_sum / total_weight_sum
  end.

(** [max(1.0, min(5.0, x))] *)
Definition clamp (x : Q) : Q := Qmax 1 (Qmin 5 x).

(** [calculate_big5_scores] (the MBTI type it computes is discarded). *)
Definition calculate_big5_scores (rs : list question_result) : list (string * Q) :=
  map (fun d => (d, clamp (weighted_average (weighted_scores rs d)))) dimensions.

(** The aggregation as the spec states it, for items whose vectors are
    given as total functions. *)
Definition spec_weight (d : string) (r : question_result) : Q :=
  if String.eqb d (standard_primary_dimension r) then 0.7 else 0.075.

Definition spec_trait_score (vec : question_result -> string -> Q)
    (rs : list question_result) (d : string) : Q :=
  clamp (sum_Q (map (fun r => vec r d * spec_weight d r) rs)
         / sum_Q (map (fun r => spec_weight d r) rs)).

(** A sample item: an Extraversion item scored 5 on its dimension. *)
Definition c6_item : question_result :=
  {| final_adjusted_scores :=
       [("openness_to_experience", VNum 3); ("conscientiousness", VNum 3);
        ("extraversion", VNum 5); ("agreeableness", VNum 3);
        ("neuroticism", VNum 3)]%string;
     question_dimension := "Extraversion" |}.

Definition c6_vec (r : question_result) (d : string) : Q :=
  if String.eqb d "extraversion" then 5 else 3.

(** A sample item whose dimension is not recognised, scored 1 everywhere. *)
Definition c6_other_item : question_result :=
  {| final_adjusted_scores :=
       [("openness_to_experience", VNum 1); ("conscientiousness", VNum 1);
        ("extraversion", VNum 1); ("agreeableness", VNum 1);
        ("neuroticism", VNum 1)]%string;
     question_dimension := "Honesty" |}.

(** The vectors of [c6_item] and [c6_other_item]. *)
Definition c6_vec2 (r : question_result) (d : string) : Q :=
  if String.eqb (question_dimension r) "Extraversion" then c6_vec r d else 1.

End Aggregate.

(* ------------------------------------------------------------------ *)
(** ** Typology code *)

Module Typology.

Import Aggregate.
Open Scope Q_scope.

Definition Qlt_bool (a b : Q) : bool := negb (Qle_bool b a).

(** [big5_scores.get(k, 3)] *)
Definition trait (big5_scores : list (string * Q)) (k : string) : Q :=
  match assoc k big5_scores with Some v => v | None => 3 end.

(** [infer_mbti_type] of the smart transparent pipeline. *)
Definition infer_mbti_type (big5_scores : list (string * Q)) : string :=
  match big5_scores with
  | [] => "Unknown"%string
  | _ =>
      let E := trait big5_scores "extraversion" in
      let O := trait big5_scores "openness_to_experience" in
      let C := trait big5_scores "conscientiousness" in
      let A := trait big5_scores "agreeableness" in
      let N := trait big5_scores "neuroticism" in
      let e_score := E + (5 - N) in
      let i_score := (5 - E) + N in
      let E_preference := if Qlt_bool i_score e_score then "E"%string else "I"%string in
      let S_preference := if Qle_bool O 3 then "S"%string else "N"%string in
      let T_preference := if Qle_bool A 3 then "T"%string else "F"%string in
      let J_preference := if Qlt_bool 3 C then "J"%string else "P"%string in
      (E_preference ++ S_preference ++ T_preference ++ J_preference)%string
  end.

(** The four-letter code as the spec states it. *)
Definition spec_code (E O C A N : Q) : string :=
  ((if Qlt_bool ((5 - E) + N) (E + (5 - N)) then "E"%string else "I"%string)
   ++ (if Qle_bool O 3 then "S"%string else "N"%string)
   ++ (if Qle_bool A 3 then "T"%string else "F"%string)
   ++ (if Qlt_bool 3 C then "J"%string else "P"%string))%string.

Definition big5_dict (E O C A N : Q) : list (string * Q) :=
  [("openness_to_experience", O); ("conscientiousness", C);
   ("extraversion", E); ("agreeableness", A); ("neuroticism", N)]%string.

End Typology.

(* ------------------------------------------------------------------ *)
(** ** Divergence handlers of the consensus engine

    [_handle_major_disagreement], [_handle_still_divided] and
    [_remove_max_bias]: the extended resolution path that the dispatcher
    does not call (it calls [_handle_major_disagreement_simple]), and
    [_calculate_quality_metrics] of [_create_result]. *)

Module Divergence.

Import Consensus.
Open Scope Z_scope.

(** [abs(score - median_score)] *)
Definition bias (median_score : Q) (score : Z) : Q :=
  Qabs (inject_Z score - median_score).

(** [scored_scores.sort(key=lambda x: x[1])]: a stable sort on the bias,
    an element going before the later ones of equal bias. *)
Fixpoint insert_by_bias (p : Z * Q) (l : list (Z * Q)) : list (Z * Q) :=
  match l with
  | [] => [p]
  | q :: t => if Qle_bool (snd p) (snd q) then p :: l else q :: insert_by_bias p t
  end.

Fixpoint sort_by_bias (l : list (Z * Q)) : list (Z * Q) :=
  match l with
  | [] => []
  | p :: t => insert_by_bias p (sort_by_bias t)
  end.

(** The Python slice [l[:-n]]: empty for [n = 0], else all but the last
    [n] elements. *)
Definition drop_last {A} (n : nat) (l : list A) : list A :=
  match n with
  | O => []
  | S _ => firstn (List.length l - n) l
  end.

(** [_remove_max_bias]; [None] where it raises [ValueError]. *)
Definition remove_max_bias (scores : list Z) (remove_count : nat) : option (list Z) :=
  if (List.length scores <=? remove_count)%nat then None
  else
    let median_score := median scores in
    let scored_scores :=
      sort_by_bias (map (fun s => (s, bias median_score s)) scores) in
    Some (map fst (drop_last remove_count scored_scores)).

(** [Counter(scores)]: the distinct values in order of first occurrence,
    with their counts. *)
Fixpoint uniq_acc (seen l : list Z) : list Z :=
  match l with
  | [] => []
  | x :: t =>
      if existsb (Z.eqb x) seen then uniq_acc seen t
      else x :: uniq_acc (x :: seen) t
  end.

Definition counter (l : list Z) : list (Z * nat) :=
  map (fun x => (x, count_occ Z.eq_dec l x)) (uniq_acc [] l).

(** Errors of the extended path: [get_additional_scores] raised, or
    [_remove_max_bias] raised [ValueError]. *)
Inductive herror := HEvaluatorFailure | HValueError.

(** A result with the number of [get_additional_scores] calls made so
    far, or an error. *)
Inductive houtcome :=
  | HDone (r : consensus_result) (calls : nat)
  | HRaised (e : herror).

(** [_remove_max_bias] followed by [statistics.mean] and [_create_result]. *)
Definition finish (scores : list Z) (remove_count : nat) (method : string)
    (round_num calls : nat) : houtcome :=
  match remove_max_bias scores remove_count with
  | None => HRaised HValueError
  | Some bias_removed_scores =>
      HDone (create_result bias_removed_scores (mean bias_removed_scores)
               method round_num) calls
  end.

(** [_handle_still_divided]; [k] calls of the requester were made before. *)
Definition handle_still_divided (current_scores : list Z) (discarded_score : Z)
    (req : requester) (round_num k : nat) : houtcome :=
  let all_scores := current_scores ++ [discarded_score] in
  let current_mean := mean current_scores in
  if Qle_bool (Qabs (inject_Z discarded_score - current_mean)) 2 then
    finish all_scores 1 "bias_removed_consensus" round_num k
  else if (List.length current_scores <? 7)%nat then
    match req k 2%nat with
    | None => HRaised HEvaluatorFailure
    | Some new_scores =>
        finish (current_scores ++ new_scores) 2 "final_consensus" round_num (S k)
    end
  else finish current_scores 1 "forced_consensus" round_num k.

(** [_handle_major_disagreement].  With two distinct values,
    [most_common(2)] lists the more frequent first and, on a tie, the one
    seen first. *)
Definition handle_major_disagreement (scores : list Z) (req : requester)
    (round_num k : nat) : houtcome :=
  match counter scores with
  | [(a, ca); (b, cb)] =>
      let '(common_score, uncommon_score) :=
        if (ca <? cb)%nat then (b, a) else (a, b) in
      match req k 2%nat with
      | None => HRaised HEvaluatorFailure
      | Some new_scores =>
          let extended_scores := common_score :: new_scores in
          let new_max := fold_left Z.max new_scores common_score in
          let new_min := fold_left Z.min new_scores common_score in
          if new_max - new_min <=? 2 then
            HDone (create_result extended_scores (mean extended_scores)
                     "extended_consensus" round_num) (S k)
          else handle_still_divided extended_scores uncommon_score req
                 round_num (S k)
      end
  | _ =>
      match req k 2%nat with
      | None => HRaised HEvaluatorFailure
      | Some new_scores =>
          finish (scores ++ new_scores) 2 "max_divergence_consensus" round_num (S k)
      end
  end.

End Divergence.

(* ------------------------------------------------------------------ *)
(** ** Response parsing and evaluation in the improved pipeline

    [parse_scores_from_response], [_pattern_to_dimension],
    [_validate_scores], [evaluate_single_question], the initial loop of
    [_get_adaptive_consensus] and
    [_expand_consensus_score_to_all_dimensions_improved]. *)

Module Parsing.

Import Consensus Pipeline Aggregate.
Open Scope Z_scope.

(** Python [sub in s] on strings. *)
Fixpoint contains (sub s : string) : bool :=
  match s with
  | EmptyString => String.prefix sub s
  | String _ t => String.prefix sub s || contains sub t
  end.

(** Python [s.endswith(suffix)]. *)
Definition ends_with (suffix s : string) : bool :=
  (String.length suffix <=? String.length s)%nat &&
  String.eqb (substring (String.length s - String.length suffix)
                (String.length suffix) s) suffix.

(** The regular expressions of [parse_scores_from_response], in order. *)
Definition patterns : list string :=
  ["openness[_\s]*to[_\s]*experience[:\s]*([1-5])";
   "conscientiousness[:\s]*([1-5])";
   "extraversion[:\s]*([1-5])";
   "agreeableness[:\s]*([1-5])";
   "neuroticism[:\s]*([1-5])";
   "O[:\s]*([1-5])";
   "C[:\s]*([1-5])";
   "E[:\s]*([1-5])";
   "A[:\s]*([1-5])";
   "N[:\s]*([1-5])";
   "openness[:\s]*to[_\s]*experience[:\s]*:\s*([1-5])";
   "conscientiousness[:\s]*:\s*([1-5])";
   "extraversion[:\s]*:\s*([1-5])";
   "agreeableness[:\s]*:\s*([1-5])";
   "neuroticism[:\s]*:\s*([1-5])"]%string.

(** [_pattern_to_dimension]: substring tests on the pattern text; [None]
    for Python's [None]. *)
Definition pattern_to_dimension (pattern : string) : option string :=
  if contains "openness" pattern then Some "openness_to_experience"%string
  else if contains "conscientious" pattern then Some "conscientiousness"%string
  else if contains "extraversion" pattern || contains "\bE\b" pattern
  then Some "extraversion"%string
  else if contains "agreeableness" pattern || contains "\bA\b" pattern
  then Some "agreeableness"%string
  else if contains "neuroticism" pattern || contains "\bN\b" pattern
  then Some "neuroticism"%string
  else None.

(** A model response, seen through the two regular-expression calls the
    parser makes on it: [re.search(pattern, response, re.IGNORECASE)]
    (the integer of group 1, [None] without a match) and
    [re.findall(r'\b([1-5])\b', response)] as integers. *)
Record response_view := {
  search : string -> option Z;
  numbers : list Z
}.

(** The pattern loop: the first pattern that matches and names a
    dimension sets that one entry and stops the loop. *)
Fixpoint scan_patterns (v : response_view) (ps : list string) : list (string * Z) :=
  match ps with
  | [] => []
  | pattern :: t =>
      match search v pattern with
      | Some score =>
          match pattern_to_dimension pattern with
          | Some dimension => [(dimension, score)]
          | None => scan_patterns v t
          end
      | None => scan_patterns v t
      end
  end.

(** [parse_scores_from_response]: the dict in insertion order. *)
Definition parse_scores_from_response (v : response_view) : list (string * Z) :=
  match scan_patterns v patterns with
  | [] =>
      match numbers v with
      | [] => []
      | default_score :: _ => map (fun d => (d, default_score)) dimensions
      end
  | scores => scores
  end.

(** [_validate_scores] (the values of a parsed dict are always [int]). *)
Definition validate_scores (scores : list (string * Z)) : bool :=
  match scores with
  | [] => false
  | _ =>
      forallb (fun dimension =>
                 match assoc dimension scores with
                 | Some v => (1 <=? v) && (v <=? 5)
                 | None => false
                 end) dimensions
  end.

(** The fallback list of [evaluate_single_question]. *)
Definition fallback_models (model : string) : list string :=
  if ends_with "-cloud" model then
    [model; "gpt-oss:120b-cloud"; "qwen3-vl:235b-cloud"; "qwen3:8b";
     "deepseek-r1:8b"; "mistral:instruct"]%string
  else [model; "qwen3:8b"; "deepseek-r1:8b"; "mistral:instruct"]%string.

(** The attempt loop: [generate m] is the response of [ollama.generate]
    for model [m], [None] when the call raises. *)
Fixpoint first_valid (generate : string -> option response_view)
    (models : list string) : evaluation :=
  match models with
  | [] => None
  | attempt_model :: t =>
      match generate attempt_model with
      | None => first_valid generate t
      | Some response =>
          let scores := parse_scores_from_response response in
          if validate_scores scores then Some scores else first_valid generate t
      end
  end.

(** [evaluate_single_question]; [None] where it raises [RuntimeError]. *)
Definition evaluate_single_question (generate : string -> option response_view)
    (model : string) : evaluation :=
  first_valid generate (fallback_models model).

(** The loop over [range(3)] of [_get_adaptive_consensus]: the [i]-th
    evaluation, a raised one replaced by 3. *)
Definition get_initial_scores (evaluate : nat -> evaluation) (primary : string)
    : list Z :=
  map (fun i =>
         match evaluate i with
         | None => 3
         | Some scores => snap_score (dict_get primary scores 3)
         end)
      (seq 0 3).

(** [_get_adaptive_consensus]: the initial evaluations, then the engine
    with the [_get_additional_scores] request_more. *)
Definition get_adaptive_consensus (fuel : nat) (evaluate_init : nat -> evaluation)
    (evaluate_more : nat -> nat -> evaluation)
    (question_dimension : string) : outcome :=
  adaptive_consensus fuel (pipeline_requester evaluate_more question_dimension)
    (get_initial_scores evaluate_init (get_primary_dimension question_dimension)).

(** One stored model evaluation: its [question_id] (if any) and its
    [big5_scores] (default [{}]). *)
Record stored_score := {
  stored_question_id : option string;
  stored_big5_scores : list (string * Q)
}.

(** [_get_all_model_scores]; an absent or empty [individual_model_scores]
    is the empty list. *)
Definition get_all_model_scores (individual_model_scores : list (list stored_score))
    (question_id : string) : list (list (string * Q)) :=
  flat_map (fun model_score_list =>
    flat_map (fun score_data =>
      match stored_question_id score_data with
      | Some q =>
          if String.eqb q question_id then
            match stored_big5_scores score_data with
            | [] => []
            | scores => [scores]
            end
          else []
      | None => []
      end) model_score_list) individual_model_scores.

Fixpoint all_some {A} (l : list (option A)) : option (list A) :=
  match l with
  | [] => Some []
  | None :: _ => None
  | Some x :: t => match all_some t with Some r => Some (x :: r) | None => None end
  end.

(** [statistics.mean] of a non-empty list of numbers. *)
Definition meanQ (l : list Q) : Q := (sum_Q l / inject_Z (Z.of_nat (List.length l)))%Q.

(** [_map_dimension_name]: [dimension_map.get(name, name)]. *)
Definition map_dimension_name (dimension_name : string) : string :=
  match dimension_map dimension_name with
  | Some d => d
  | None => dimension_name
  end.

(** [_expand_consensus_score_to_all_dimensions_improved]; [None] where
    [model[dimension]] raises [KeyError]. *)
Definition expand_improved (preserve_precision : bool) (consensus_score : Q)
    (question_dimension question_id : string)
    (individual_model_scores : list (list stored_score))
    : option (list (string * Q)) :=
  if negb preserve_precision then
    Some (map (fun e => (fst e, inject_Z (snd e)))
              (Expand.expand_original consensus_score question_dimension))
  else
    let primary_dimension := get_primary_dimension question_dimension in
    let standard_primary_dimension := map_dimension_name primary_dimension in
    let all_model_scores := get_all_model_scores individual_model_scores question_id in
    all_some
      (map (fun dimension =>
              if String.eqb dimension standard_primary_dimension
              then Some (dimension, consensus_score)
              else match all_model_scores with
                   | [] => Some (dimension, 3%Q)
                   | _ =>
                       match all_some (map (fun model => assoc dimension model)
                                           all_model_scores) with
                       | Some scores => Some (dimension, meanQ scores)
                       | None => None
                       end
                   end) dimensions).

(** A sample response: no named pattern matches, the first digit is 5. *)
Definition all_five_view : response_view :=
  {| search := fun _ => None; numbers := [5] |}.

End Parsing.

(** [_calculate_quality_metrics] of the consensus engine. *)
Module QualityMetrics.

Import Reliability.
Open Scope R_scope.

(** The metrics dict; [agreement_ratio] and [evaluator_diversity] are
    absent for fewer than two scores. *)
Record quality_metrics := {
  consensus_strength : R;
  agreement_level : string;
  agreement_ratio : option R;
  evaluator_diversity : option nat
}.

Definition calculate_quality_metrics (scores : list Z) : quality_metrics :=
  if (List.length scores <? 2)%nat then
    {| consensus_strength := 1.0; agreement_level := "perfect";
       agreement_ratio := None; evaluator_diversity := None |}
  else
    let std_dev := stdev scores in
    let consensus_strength := Rmax 0.0 (1.0 - std_dev / 2.0) in
    let max_count := mode_count scores in
    let agreement_ratio := INR max_count / INR (List.length scores) in
    let agreement_level :=
      if Rle_dec 0.8 agreement_ratio then "high"%string
      else if Rle_dec 0.6 agreement_ratio then "medium"%string
      else "low"%string in
    {| consensus_strength := round3 consensus_strength;
       agreement_level := agreement_level;
       agreement_ratio := Some (round3 agreement_ratio);
       evaluator_diversity := Some (List.length (nodup Z.eq_dec scores)) |}.

End QualityMetrics.

(* ------------------------------------------------------------------ *)
(** ** The smart transparent pipeline

    [detect_major_dimension_disputes], [resolve_disputes_intelligently],
    the final scores of [calculate_final_scores_intelligently],
    [calculate_big5_averages] and the scoring path of
    [process_single_question].  Each call of
    [smart_evaluator.evaluate_with_fallback] is an oracle returning the
    score dict, or [None] when it raises. *)

Module Smart.

Import Consensus Pipeline Aggregate.
Open Scope Z_scope.

Record dispute := {
  dispute_scores : list Z;
  dispute_range : Z;
  severity : string
}.

(** [[score[trait] for score in all_scores if trait in score]] *)
Definition trait_scores (all_scores : list (list (string * Z))) (trait : string)
    : list Z :=
  flat_map (fun score => match assoc trait score with Some v => [v] | None => [] end)
    all_scores.

(** [detect_major_dimension_disputes]: the disputes dict in order of the
    major traits. *)
Definition detect_major_dimension_disputes (all_scores : list (list (string * Z)))
    (threshold : Z) : list (string * dispute) :=
  if (List.length all_scores <? 2)%nat then []
  else
    flat_map (fun trait =>
      let scores := trait_scores all_scores trait in
      if (2 <=? List.length scores)%nat then
        match list_min scores, list_max scores with
        | Some min_score, Some max_score =>
            if threshold <=? max_score - min_score then
              [(trait, {| dispute_scores := scores;
                          dispute_range := max_score - min_score;
                          severity := if 3 <=? max_score - min_score
                                      then "high"%string else "medium"%string |})]
            else []
        | _, _ => []
        end
      else []) dimensions.

(** An element of [all_scores_data]: a score dict, or an entry
    [{'model': m, 'scores': s, 'raw_scores': s}] of [initial_scores]. *)
Inductive score_entry :=
  | Plain (scores : list (string * Z))
  | Wrapped (model : string) (scores : list (string * Z)).

(** The dispute-model loop of [resolve_disputes_intelligently]: skip the
    models already used, append the first successful score dict, stop. *)
Fixpoint resolve_loop (dispute_models all_models_used : list string)
    (resolve : string -> option (list (string * Z)))
    (all_scores_data : list score_entry) : list score_entry :=
  match dispute_models with
  | [] => all_scores_data
  | model :: t =>
      if existsb (String.eqb model) all_models_used
      then resolve_loop t all_models_used resolve all_scores_data
      else match resolve model with
           | Some scores => all_scores_data ++ [Plain scores]
           | None => resolve_loop t all_models_used resolve all_scores_data
           end
  end.

Definition resolve_disputes_intelligently (disputes : list (string * dispute))
    (dispute_models all_models_used : list string)
    (resolve : string -> option (list (string * Z)))
    (all_scores_data : list score_entry) : list score_entry :=
  match disputes with
  | [] => all_scores_data
  | _ => resolve_loop dispute_models all_models_used resolve all_scores_data
  end.

(** [valid_scores] of a trait: only a score dict holds trait keys. *)
Definition valid_scores (all_scores_data : list score_entry) (trait : string)
    : list Z :=
  flat_map (fun score_data =>
              match score_data with
              | Plain scores =>
                  match assoc trait scores with Some v => [v] | None => [] end
              | Wrapped _ _ => []
              end) all_scores_data.

Definition sum_Z (l : list Z) : Z := fold_left Z.add l 0.

(** [valid_scores.sort(); valid_scores[1:-1]] *)
Definition middle_scores (l : list Z) : list Z := removelast (tl (sort l)).

(** The final score of one trait: [round] of the (trimmed) mean, or, with
    no valid score, [fallback_scores.get(trait, 3)] of a fresh fallback
    evaluation ([None] when it raises: 3). *)
Definition final_trait_score (valid : list Z)
    (fallback_scores : option (list (string * Z))) (trait : string) : Z :=
  match valid with
  | [] =>
      match fallback_scores with
      | Some scores => dict_get trait scores 3
      | None => 3
      end
  | _ =>
      let used := if (3 <=? List.length valid)%nat then middle_scores valid else valid in
      round_half_even (inject_Z (sum_Z used) / inject_Z (Z.of_nat (List.length used)))%Q
  end.

(** The [final_scores] dict of [calculate_final_scores_intelligently];
    [fallback trait] is the fallback evaluation made for that trait. *)
Definition calculate_final_scores (all_scores_data : list score_entry)
    (fallback : string -> option (list (string * Z))) : list (string * Z) :=
  map (fun trait =>
         (trait, final_trait_score (valid_scores all_scores_data trait)
                   (fallback trait) trait)) dimensions.

(** The initial loop of [process_single_question]: the models whose
    evaluation succeeded, with their score dicts. *)
Definition initial_evaluations (primary_models : list string)
    (evaluate : string -> option (list (string * Z))) : list (string * list (string * Z)) :=
  flat_map (fun model => match evaluate model with
                         | Some scores => [(model, scores)]
                         | None => []
                         end) primary_models.

(** The [final_scores] of [process_single_question]; [None] where it
    raises because no primary model could evaluate the item. *)
Definition process_single_question_scores (primary_models dispute_models : list string)
    (dispute_threshold : Z)
    (evaluate resolve fallback : string -> option (list (string * Z)))
    : option (list (string * Z)) :=
  let initial_scores := initial_evaluations primary_models evaluate in
  match initial_scores with
  | [] => None
  | _ =>
      let all_initial_scores := map snd initial_scores in
      let disputes := detect_major_dimension_disputes all_initial_scores dispute_threshold in
      let all_models_used := map fst initial_scores in
      let current_scores :=
        match disputes with
        | [] => map Plain all_initial_scores
        | _ => resolve_disputes_intelligently disputes dispute_models all_models_used
                 resolve (map (fun e => Wrapped (fst e) (snd e)) initial_scores)
        end in
      Some (calculate_final_scores current_scores fallback)
  end.

(** The cloud configuration of [__init__]. *)
Definition cloud_primary_models : list string :=
  ["deepseek-v3.1:671b-cloud"; "gpt-oss:120b-cloud"; "qwen3-vl:235b-cloud"]%string.
Definition cloud_dispute_models : list string :=
  ["qwen3-vl:235b-cloud"; "gpt-oss:120b-cloud"]%string.

(** The local configuration of [__init__] ([use_cloud=False]). *)
Definition local_primary_models : list string :=
  ["qwen3:8b"; "deepseek-r1:8b"; "mistral:instruct"]%string.
Definition local_dispute_models : list string :=
  ["qwen3:8b"; "deepseek-r1:8b"]%string.

(** An entry of [all_question_results]: [result.get('success', True)] and
    its [final_scores] dict, if any. *)
Record question_outcome := {
  success : bool;
  outcome_final_scores : option (list (string * Q))
}.

(** [calculate_big5_averages]; the empty dict is []. *)
Definition calculate_big5_averages (question_results : list question_outcome)
    : list (string * Q) :=
  match question_results with
  | [] => []
  | _ =>
      let valid := flat_map (fun result =>
                     if success result then
                       match outcome_final_scores result with
                       | Some scores => [scores]
                       | None => []
                       end
                     else []) question_results in
      match valid with
      | [] => []
      | _ =>
          map (fun trait =>
                 (trait,
                  (fold_left (fun acc scores =>
                                acc + match assoc trait scores with
                                      | Some v => v
                                      | None => 3
                                      end) valid 0
                   / inject_Z (Z.of_nat (List.length valid)))%Q)) dimensions
      end
  end.


(** No entry of [question_results] is successful with final scores. *)
Definition no_valid_result (question_results : list question_outcome) : Prop :=
  forall r, In r question_results -> success r = false \/ outcome_final_scores r = None.

(** Sample evaluations: every dimension scored [v]. *)
Definition uniform_dict (v : Z) : list (string * Z) := map (fun d => (d, v)) dimensions.

(** Three sample models scoring 3, 4 and 5. *)
Definition sample_evaluate (m : string) : option (list (string * Z)) :=
  if String.eqb m "m1" then Some (uniform_dict 3)
  else if String.eqb m "m2" then Some (uniform_dict 4)
  else if String.eqb m "m3" then Some (uniform_dict 5)
  else None.

(** The first cloud model scores 1, the others 5. *)
Definition split_evaluate (m : string) : option (list (string * Z)) :=
  if String.eqb m "deepseek-v3.1:671b-cloud" then Some (uniform_dict 1)
  else Some (uniform_dict 5).

End Smart.

(** [_calculate_reliability_score] of the smart pipeline. *)
Module SmartReliability.

Import Reliability.
Open Scope R_scope.

(** [(sum((s - mean)**2 for s in scores) / len(scores))**0.5] *)
Definition pstdev (scores : list Z) : R :=
  let n := INR (List.length scores) in
  sqrt (fold_left (fun acc s => acc + (IZR s - sum_R scores / n) ^ 2) scores 0 / n).

Definition consistency_term (scores : list Z) : R :=
  if (2 <=? List.length scores)%nat then
    let std_dev := pstdev scores in
    if Rlt_dec std_dev 0.5 then 0.1
    else if Rlt_dec std_dev 1.0 then 0.05
    else 0
  else 0.

(** [trait_valid_scores] are the [valid_scores] of the traits, in order. *)
Definition calculate_reliability_score (trait_valid_scores : list (list Z))
    (initial_count resolution_count : nat) : R :=
  let base_reliability := 0.5 in
  let count_bonus := Rmin 0.3 (INR initial_count * 0.1) in
  let consistency_bonus :=
    Rmin (fold_left (fun acc scores => acc + consistency_term scores)
            trait_valid_scores 0) 0.3 in
  let resolution_bonus := Rmin 0.2 (INR resolution_count * 0.1) in
  Rmin (base_reliability + count_bonus + consistency_bonus + resolution_bonus) 1.0.

End SmartReliability.

(** [_calculate_mbti_type] of the improved pipeline. *)
Module ImprovedTypology.

Import Typology.
Open Scope Q_scope.

Definition calculate_mbti_type (big5_scores : list (string * Q)) : string :=
  let e_score := trait big5_scores "extraversion" in
  let i_score := trait big5_scores "openness_to_experience" in
  let s_score := trait big5_scores "conscientiousness" in
  let t_score := trait big5_scores "agreeableness" in
  let f_score := trait big5_scores "neuroticism" in
  let i_type := if Qlt_bool e_score (5 # 2) then "I"%string else "E"%string in
  let n_type := if Qlt_bool f_score (5 # 2) then "N"%string else "S"%string in
  let t_type := if Qlt_bool (7 # 2) t_score then "T"%string else "F"%string in
  let j_type := if Qlt_bool (7 # 2) f_score then "J"%string else "P"%string in
  let p_type := if Qlt_bool (7 # 2) s_score then "P"%string else "J"%string in
  (i_type ++ n_type ++ t_type ++ j_type ++ p_type)%string.

End ImprovedTypology.

(* ------------------------------------------------------------------ *)
(** * Properties of the consensus engine *)

Section ConsensusFacts.

Import Consensus Pipeline.
Open Scope Z_scope.

Lemma round_step_spec (s : list Z) (mx mn : Z) :
  list_max s = Some mx -> list_min s = Some mn ->
  round_step s =
    (if mx - mn =? 0 then RStop (inject_Z mx) "perfect_consensus"
     else if mx - mn <=? 2 then RStop (mean s) "minor_consensus"
     else if mx - mn =? 4 then RMajor (consolidate s)
     else RAbnormal (mx - mn)).
Proof.
  intros Hmax Hmin. unfold round_step. rewrite Hmax, Hmin.
  unfold handle_minor_disagreement.
  destruct (List.length (nodup Z.eq_dec s) =? 2)%nat; reflexivity.
Qed.

Lemma round_step_stop_method (s : list Z) (cs : Q) (m : string) :
  round_step s = RStop cs m ->
  m = "perfect_consensus"%string \/ m = "minor_consensus"%string.
Proof.
  intro H. unfold round_step, handle_minor_disagreement in H.
  destruct (list_max s) as [mx|], (list_min s) as [mn|]; try discriminate H.
  destruct (mx - mn =? 0); [injection H as _ <-; auto|].
  destruct (mx - mn <=? 2).
  - destruct (List.length (nodup Z.eq_dec s) =? 2)%nat; injection H as _ <-; auto.
  - destruct (mx - mn =? 4); discriminate H.
Qed.

(** Every result the recursive process returns comes from the perfect or
    the minor branch. *)
Lemma process_done_method (fuel : nat) (req : requester) (k : nat)
    (s : list Z) (r : nat) (res : consensus_result) :
  process fuel req k s r = Done res ->
  consensus_method res = "perfect_consensus"%string
  \/ consensus_method res = "minor_consensus"%string.
Proof.
  revert req k s r. induction fuel as [|fuel IH]; intros req k s r; simpl.
  - discriminate.
  - destruct (round_step s) as [cs m|c|d|] eqn:Hs.
    + intro H. injection H as <-. simpl.
      exact (round_step_stop_method s cs m Hs).
    + destruct (req k 2%nat) as [news|]; [apply IH | discriminate].
    + discriminate.
    + discriminate.
Qed.

(** With request_more answering [1, 5], the list [3, 1, 5] reproduces
    itself forever. *)
Lemma process_3_1_5_loops (fuel k r : nat) :
  process fuel req_1_5 k [3; 1; 5] r = OutOfFuel (k + fuel) [3; 1; 5].
Proof.
  revert k r. induction fuel as [|fuel IH]; intros k r.
  - simpl. rewrite Nat.add_0_r. reflexivity.
  - change (process (S fuel) req_1_5 k [3; 1; 5] r)
      with (process fuel req_1_5 (S k) [3; 1; 5] (S r)).
    rewrite IH. f_equal. lia.
Qed.

Lemma run_1_3_5_loops (fuel : nat) :
  exists s, adaptive_consensus fuel req_1_5 [1; 3; 5] = OutOfFuel fuel s.
Proof.
  destruct fuel as [|fuel].
  - exists [1; 3; 5]. reflexivity.
  - exists [3; 1; 5].
    change (adaptive_consensus (S fuel) req_1_5 [1; 3; 5])
      with (process fuel req_1_5 1 [3; 1; 5] 2).
    rewrite process_3_1_5_loops. reflexivity.
Qed.

(** Python [round(z, 2)] leaves an integer unchanged. *)
Lemma round2_inject_Z (z : Z) : round2 (inject_Z z) == inject_Z z.
Proof.
  assert (Hf : Qfloor (inject_Z z * 100) = z * 100).
  { rewrite <- (Qfloor_Z (z * 100)). apply Qfloor_comp.
    unfold Qeq; simpl; lia. }
  assert (Hr : round_half_even (inject_Z z * 100) = z * 100).
  { unfold round_half_even. rewrite Hf.
    destruct (Qle_bool (1 # 2) (inject_Z z * 100 - inject_Z (z * 100))) eqn:E.
    - apply Qle_bool_iff in E. unfold Qle in E; simpl in E. lia.
    - reflexivity. }
  unfold round2. rewrite Hr. unfold Qeq; simpl. lia.
Qed.

End ConsensusFacts.

Section ConsensusClaims.

Import Consensus Pipeline.
Open Scope Z_scope.

(** C1 (code_bug): [max_evaluators] (7) is declared but the simple
    major-disagreement handler never consults it.  From [1, 3, 5] with
    request_more answering [1, 5], seven judgments have been obtained after
    two calls, yet the engine makes a third call (and keeps calling for any
    amount of fuel), and no result of the engine ever carries the method
    [forced_consensus]. *)
Theorem C1_max_evaluators_not_enforced :
  judgments_obtained 2 = max_evaluators /\
  adaptive_consensus 3 req_1_5 [1; 3; 5] = OutOfFuel 3 [3; 1; 5] /\
  (forall fuel, exists s,
      adaptive_consensus fuel req_1_5 [1; 3; 5] = OutOfFuel fuel s) /\
  (forall fuel req init res,
      adaptive_consensus fuel req init = Done res ->
      consensus_method res <> "forced_consensus"%string).
Proof.
  split; [reflexivity|]. split; [reflexivity|]. split.
  - exact run_1_3_5_loops.
  - intros fuel req init res H.
    unfold adaptive_consensus in H.
    destruct (negb (List.length init =? 3)%nat); [discriminate H|].
    destruct (negb (forallb allowed init)); [discriminate H|].
    destruct (process_done_method fuel req 0 init 1 res H) as [E|E];
      rewrite E; discriminate.
Qed.

(** C2 (code_bug): a request_more returning exactly two valid scores each
    time does not make the resolution terminate: from [1, 3, 5] with answers
    [1, 5] no amount of fuel reaches a stop branch. *)
Theorem C2_resolution_may_not_terminate :
  (forall k n l, req_1_5 k n = Some l ->
     List.length l = 2%nat /\ forallb allowed l = true) /\
  ~ (exists fuel res, adaptive_consensus fuel req_1_5 [1; 3; 5] = Done res).
Proof.
  split.
  - intros k n l H. injection H as <-. split; reflexivity.
  - intros [fuel [res H]]. destruct (run_1_3_5_loops fuel) as [s Hs].
    rewrite Hs in H. discriminate H.
Qed.

(** C3 (code_bug): when every evaluation raises, [_get_additional_scores]
    answers the neutral 3 for each requested judgment and the engine turns
    [1, 3, 5] into a perfect consensus on 3; a request_more returning fewer
    scores than requested is not detected either. *)
Theorem C3_failed_judgments_become_neutral :
  get_additional_scores evaluate_failing "extraversion" 2 = [3; 3] /\
  adaptive_consensus 2 (pipeline_requester (fun _ => evaluate_failing) "Extraversion")
    [1; 3; 5]
  = Done (create_result [3; 3; 3] (inject_Z 3) "perfect_consensus" 2) /\
  adaptive_consensus 2 (fun _ _ => Some []) [1; 3; 5]
  = Done (create_result [3] (inject_Z 3) "perfect_consensus" 2).
Proof.
  split; [reflexivity|]. split; vm_compute; reflexivity.
Qed.

(** C4 (counterexample): the minor branch reports the mean rounded to two
    decimals: for [3, 3, 5] it reports 3.67, not 11/3. *)
Lemma C4_minor_score_not_exact_mean :
  exists res,
    adaptive_consensus 1 req_1_5 [3; 3; 5] = Done res /\
    consensus_method res = "minor_consensus"%string /\
    ~ Qeq (consensus_score res) (mean [3; 3; 5]).
Proof.
  eexists. split; [vm_compute; reflexivity|]. split; [reflexivity|].
  vm_compute. intro H. discriminate H.
Qed.

(** C4 (amended): in a round whose list has maximum [mx] and minimum [mn],
    spread 0 stops with method perfect_consensus and score [mx]; a spread in
    (0, 2] stops with method minor_consensus and score the mean rounded to
    two decimals; spread 4 consolidates into the median when a value
    repeats and into the mean otherwise. *)
Theorem C4_round_dispatch (s : list Z) (mx mn : Z) (fuel : nat)
    (req : requester) (k r : nat) :
  list_max s = Some mx -> list_min s = Some mn ->
  (mx - mn = 0 ->
     exists res, process (S fuel) req k s r = Done res /\
       consensus_method res = "perfect_consensus"%string /\
       (consensus_score res == inject_Z mx)%Q) /\
  (0 < mx - mn <= 2 ->
     exists res, process (S fuel) req k s r = Done res /\
       consensus_method res = "minor_consensus"%string /\
       consensus_score res = round2 (mean s)) /\
  (mx - mn = 4 ->
     round_step s = RMajor (if has_repeat s then median s else mean s)).
Proof.
  intros Hmax Hmin. pose proof (round_step_spec s mx mn Hmax Hmin) as Hs.
  split; [|split].
  - intro H0. simpl. rewrite Hs. rewrite H0. simpl.
    eexists. split; [reflexivity|]. split; [reflexivity|].
    apply round2_inject_Z.
  - intro H2. simpl. rewrite Hs.
    replace (mx - mn =? 0) with false by (symmetry; apply Z.eqb_neq; lia).
    replace (mx - mn <=? 2) with true by (symmetry; apply Z.leb_le; lia).
    eexists. split; [reflexivity|]. split; reflexivity.
  - intro H4. rewrite Hs, H4. reflexivity.
Qed.

Lemma C4_round_dispatch_witness :
  list_max [3; 3; 5] = Some 5 /\ list_min [3; 3; 5] = Some 3 /\
  (exists res, process 1 req_1_5 0 [3; 3; 5] 1 = Done res /\
     consensus_method res = "minor_consensus"%string /\
     consensus_score res = round2 (mean [3; 3; 5])).
Proof.
  split; [reflexivity|]. split; [reflexivity|].
  apply (C4_round_dispatch [3; 3; 5] 5 3 0 req_1_5 0 1 eq_refl eq_refl).
  lia.
Defined.

End ConsensusClaims.

Section SpreadInvariant.

Import Consensus.
Open Scope Z_scope.

Lemma allowed_cases (a : Z) : allowed a = true -> a = 1 \/ a = 3 \/ a = 5.
Proof.
  unfold allowed. intro H.
  repeat rewrite orb_true_iff in H. rewrite !Z.eqb_eq in H. tauto.
Qed.

Lemma small_valid_round_ok (s : list Z) : small_valid s -> round_ok s = true.
Proof.
  intros [Ha Hl].
  destruct s as [|a [|b [|c [|d t]]]]; simpl in Hl; try lia;
    simpl in Ha; repeat rewrite andb_true_iff in Ha.
  - destruct Ha as [Ha _].
    destruct (allowed_cases a Ha) as [->|[->| ->]]; vm_compute; reflexivity.
  - destruct Ha as [Ha [Hb _]].
    destruct (allowed_cases a Ha) as [->|[->| ->]];
    destruct (allowed_cases b Hb) as [->|[->| ->]]; vm_compute; reflexivity.
  - destruct Ha as [Ha [Hb [Hc _]]].
    destruct (allowed_cases a Ha) as [->|[->| ->]];
    destruct (allowed_cases b Hb) as [->|[->| ->]];
    destruct (allowed_cases c Hc) as [->|[->| ->]]; vm_compute; reflexivity.
Qed.

Lemma small_valid_step (s new_scores : list Z) (c : Q) :
  small_valid s -> round_step s = RMajor c ->
  (List.length new_scores <= 2)%nat -> forallb allowed new_scores = true ->
  small_valid (trunc c :: new_scores).
Proof.
  intros Hs Hc Hl Hn.
  pose proof (small_valid_round_ok s Hs) as Hok.
  unfold round_ok in Hok. rewrite Hc in Hok.
  apply andb_true_iff in Hok as [_ Ht].
  split; simpl; [rewrite Ht, Hn; reflexivity | lia].
Qed.

Section WithRequester.

Variable req : requester.
Hypothesis req_valid : forall k n l, req k n = Some l ->
  (List.length l <= 2)%nat /\ forallb allowed l = true.

Lemma reaches_small_valid (k : nat) (s : list Z) (k' : nat) (s' : list Z) :
  reaches req k s k' s' -> small_valid s -> small_valid s'.
Proof.
  induction 1 as [k s|k s c news k' s' Hc Hreq _ IH]; intro Hs; [exact Hs|].
  apply IH. destruct (req_valid _ _ _ Hreq) as [Hl Hn].
  exact (small_valid_step s news c Hs Hc Hl Hn).
Qed.

Lemma process_no_abnormal (fuel k : nat) (s : list Z) (r : nat) (d : Z) :
  small_valid s -> process fuel req k s r <> Raised (AbnormalDiff d).
Proof.
  revert k s r. induction fuel as [|fuel IH]; intros k s r Hs; simpl;
    [discriminate|].
  pose proof (small_valid_round_ok s Hs) as Hok.
  unfold round_ok in Hok.
  destruct (round_step s) as [cs m|c|e|] eqn:Hstep; try discriminate.
  - destruct (req k 2%nat) as [news|] eqn:Hreq; [|discriminate].
    destruct (req_valid _ _ _ Hreq) as [Hl Hn].
    apply IH. exact (small_valid_step s news c Hs Hstep Hl Hn).
  - rewrite andb_false_r in Hok. discriminate Hok.
Qed.

End WithRequester.

(** C10 (counterexample): a request_more that answers only scale values
    but three of them at the first call leads [1, 3, 5] to the list
    [3, 1, 5, 5], whose median 4 is fed into the next round, and the
    dispatcher's error branch fires on spread 3. *)
Lemma C10_over_long_answer_reaches_error :
  (forall k n l, req_over k n = Some l -> forallb allowed l = true) /\
  adaptive_consensus 3 req_over [1; 3; 5] = Raised (AbnormalDiff 3).
Proof.
  split.
  - intros k n l H. destruct k; injection H as <-; reflexivity.
  - vm_compute. reflexivity.
Qed.

(** C10 (amended): when every answer of request_more holds at most two
    scores (in particular exactly the two requested), all in {1,3,5}, every
    list reached from a valid initial triple has spread 0, 2 or 4, each
    consolidated value is in {1,3,5}, and the error branch is never
    reached. *)
Theorem C10_spread_invariant (req : requester) (init : list Z) :
  (forall k n l, req k n = Some l ->
     (List.length l <= 2)%nat /\ forallb allowed l = true) ->
  List.length init = 3%nat -> forallb allowed init = true ->
  (forall k s, reaches req 0 init k s ->
     spread_ok s = true /\
     (forall c, round_step s = RMajor c -> allowed (trunc c) = true)) /\
  (forall fuel d, adaptive_consensus fuel req init <> Raised (AbnormalDiff d)).
Proof.
  intros Hreq Hlen Hall.
  assert (Hinit : small_valid init) by (split; [exact Hall | lia]).
  split.
  - intros k s Hr.
    pose proof (small_valid_round_ok s
                  (reaches_small_valid req Hreq _ _ _ _ Hr Hinit)) as Hok.
    unfold round_ok in Hok. apply andb_true_iff in Hok as [Hsp Hst].
    split; [exact Hsp|]. intros c Hc. rewrite Hc in Hst. exact Hst.
  - intros fuel d. unfold adaptive_consensus.
    rewrite Hlen, Hall. simpl.
    exact (process_no_abnormal req Hreq fuel 0 init 1 d Hinit).
Qed.

Lemma C10_spread_invariant_witness :
  (forall k n l, req_1_5 k n = Some l ->
     (List.length l <= 2)%nat /\ forallb allowed l = true) /\
  List.length [1; 3; 5] = 3%nat /\ forallb allowed [1; 3; 5] = true /\
  (forall fuel d, adaptive_consensus fuel req_1_5 [1; 3; 5]
                  <> Raised (AbnormalDiff d)).
Proof.
  assert (Hreq : forall k n l, req_1_5 k n = Some l ->
            (List.length l <= 2)%nat /\ forallb allowed l = true).
  { intros k n l H. injection H as <-. split; [simpl; lia | reflexivity]. }
  split; [exact Hreq|]. split; [reflexivity|]. split; [reflexivity|].
  apply (C10_spread_invariant req_1_5 [1; 3; 5] Hreq eq_refl eq_refl).
Defined.

End SpreadInvariant.

(* ------------------------------------------------------------------ *)
(** * Properties of the reliability calculator *)

Section ReliabilityFacts.

Import Consensus Reliability.
Open Scope R_scope.

Lemma fold_max_In (t : list Z) (x : Z) : In (fold_left Z.max t x) (x :: t).
Proof.
  revert x. induction t as [|y t IH]; intro x; simpl; [left; reflexivity|].
  destruct (IH (Z.max x y)) as [E|E].
  - destruct (Z.max_spec x y) as [[_ M]|[_ M]]; [right; left | left];
      rewrite <- E; symmetry; exact M.
  - tauto.
Qed.

Lemma fold_min_In (t : list Z) (x : Z) : In (fold_left Z.min t x) (x :: t).
Proof.
  revert x. induction t as [|y t IH]; intro x; simpl; [left; reflexivity|].
  destruct (IH (Z.min x y)) as [E|E].
  - destruct (Z.min_spec x y) as [[_ M]|[_ M]]; [left | right; left];
      rewrite <- E; symmetry; exact M.
  - tauto.
Qed.

Lemma fold_max_ge (t : list Z) (x : Z) : (x <= fold_left Z.max t x)%Z.
Proof.
  revert x. induction t as [|y t IH]; intro x; simpl; [lia|].
  specialize (IH (Z.max x y)). lia.
Qed.

Lemma fold_min_le (t : list Z) (x : Z) : (fold_left Z.min t x <= x)%Z.
Proof.
  revert x. induction t as [|y t IH]; intro x; simpl; [lia|].
  specialize (IH (Z.min x y)). lia.
Qed.

Lemma range_nonneg (l : list Z) :
  l <> [] -> exists d, range_of l = Some d /\ (0 <= d)%Z.
Proof.
  destruct l as [|x t]; [contradiction|]. intros _.
  eexists. split; [reflexivity|].
  pose proof (fold_max_ge t x). pose proof (fold_min_le t x). lia.
Qed.

Lemma allowed_In (l : list Z) (y : Z) :
  forallb allowed l = true -> In y l -> (y = 1 \/ y = 3 \/ y = 5)%Z.
Proof.
  intros H Hy. rewrite forallb_forall in H. exact (allowed_cases y (H y Hy)).
Qed.

Lemma range_valid (l : list Z) :
  l <> [] -> forallb allowed l = true ->
  exists d, range_of l = Some d /\ (d = 0 \/ d = 2 \/ d = 4)%Z.
Proof.
  destruct l as [|x t]; [contradiction|]. intros _ H.
  eexists. split; [reflexivity|].
  pose proof (fold_max_ge t x). pose proof (fold_min_le t x).
  destruct (allowed_In _ _ H (fold_max_In t x)) as [E1|[E1|E1]];
  destruct (allowed_In _ _ H (fold_min_In t x)) as [E2|[E2|E2]];
  rewrite E1, E2 in *; lia.
Qed.

Lemma ratio_unit (a b : nat) :
  (a <= b)%nat -> (0 < b)%nat -> 0 <= INR a / INR b <= 1.
Proof.
  intros Hab Hb.
  assert (Hb' : 0 < INR b) by (apply lt_0_INR; exact Hb).
  assert (Ha' : INR a <= INR b) by (apply le_INR; exact Hab).
  pose proof (pos_INR a).
  split.
  - unfold Rdiv. apply Rmult_le_pos; [lra|].
    left. apply Rinv_0_lt_compat. exact Hb'.
  - apply (Rmult_le_reg_r (INR b)); [exact Hb'|].
    unfold Rdiv. rewrite Rmult_assoc, Rinv_l by lra. lra.
Qed.

Lemma distinct_ratio_unit (l : list Z) : l <> [] -> 0 <= distinct_ratio l <= 1.
Proof.
  intro H. unfold distinct_ratio. apply ratio_unit.
  - apply NoDup_incl_length; [apply NoDup_nodup|].
    intros y Hy. exact (proj1 (nodup_In Z.eq_dec l y) Hy).
  - destruct l; [contradiction | simpl; lia].
Qed.

Lemma mode_count_le (l : list Z) : (mode_count l <= List.length l)%nat.
Proof.
  unfold mode_count.
  assert (G : forall t acc, (acc <= List.length l)%nat ->
            (fold_left (fun m x => Nat.max m (count_occ Z.eq_dec l x)) t acc
             <= List.length l)%nat).
  { induction t as [|y t IH]; intros acc Hacc; simpl; [exact Hacc|].
    apply IH. pose proof (count_occ_bound Z.eq_dec y l). lia. }
  apply G. lia.
Qed.

Lemma method_scores_bounds (m : string) : 0.3 <= method_scores m <= 1.
Proof.
  unfold method_scores.
  repeat match goal with |- context [if ?b then _ else _] => destruct b end;
    lra.
Qed.

Lemma method_efficiency_bounds (m : string) : 0.5 <= method_efficiency m <= 1.
Proof.
  unfold method_efficiency.
  repeat match goal with |- context [if ?b then _ else _] => destruct b end;
    lra.
Qed.

Lemma quality_adjustment_bounds (r0 rf : Z) :
  (r0 = 0 \/ r0 = 2 \/ r0 = 4)%Z -> (0 <= rf <= 4)%Z ->
  -0.2 <= quality_adjustment r0 rf <= 0.2.
Proof.
  intros H0 Hf. unfold quality_adjustment.
  destruct (0 <? r0)%Z eqn:E; [|lra].
  apply Z.ltb_lt in E.
  assert (0 <= IZR rf <= 4)
    by (split; [apply (IZR_le 0) | apply (IZR_le rf 4)]; lia).
  destruct H0 as [->|[->| ->]]; [lia| |];
    unfold Rmin; destruct Rle_dec; lra.
Qed.

Lemma quality_adjustment_le (r0 rf : Z) : quality_adjustment r0 rf <= 0.2.
Proof.
  unfold quality_adjustment. destruct (0 <? r0)%Z; [apply Rmin_r | lra].
Qed.

Lemma consensus_quality_unit (r0 rf : Z) (m : string) :
  (r0 = 0 \/ r0 = 2 \/ r0 = 4)%Z -> (0 <= rf <= 4)%Z ->
  0 <= assess_consensus_quality r0 rf m <= 1.
Proof.
  intros H0 Hf. unfold assess_consensus_quality.
  pose proof (method_scores_bounds m).
  pose proof (quality_adjustment_bounds r0 rf H0 Hf).
  unfold Rmin; destruct Rle_dec; lra.
Qed.

Lemma diversity_unit (o f : list Z) (rounds : Z) :
  o <> [] -> f <> [] -> (1 <= rounds)%Z ->
  0 <= assess_evaluator_diversity o f rounds <= 1.
Proof.
  intros Ho Hf Hr. unfold assess_evaluator_diversity.
  pose proof (distinct_ratio_unit o Ho). pose proof (distinct_ratio_unit f Hf).
  assert (1 <= IZR rounds) by (apply (IZR_le 1); exact Hr).
  assert (0 <= Rmax 0.0 (1.0 - (IZR rounds - 1) * 0.2) <= 1)
    by (unfold Rmax; destruct Rle_dec; lra).
  lra.
Qed.

Lemma efficiency_unit (rounds : Z) (m : string) :
  (1 <= rounds)%Z -> 0 <= assess_processing_efficiency rounds m <= 1.
Proof.
  intro Hr. unfold assess_processing_efficiency.
  pose proof (method_efficiency_bounds m).
  destruct (rounds =? 1)%Z eqn:E1; [lra|].
  destruct (rounds =? 2)%Z eqn:E2; [lra|].
  apply Z.eqb_neq in E1, E2.
  assert (3 <= IZR rounds) by (apply (IZR_le 3); lia).
  unfold Rmax; destruct Rle_dec; lra.
Qed.

Lemma agreement_unit (f : list Z) : f <> [] -> 0 <= assess_final_agreement f <= 1.
Proof.
  intro Hf. unfold assess_final_agreement.
  destruct (List.length f <? 2)%nat eqn:El; [lra|].
  apply Nat.ltb_ge in El.
  pose proof (sqrt_pos (fold_left (fun acc x => acc + (IZR x - sum_R f
                  / INR (List.length f)) ^ 2) f 0 / (INR (List.length f) - 1))).
  assert (Hm : 0 <= INR (mode_count f) / INR (List.length f) <= 1)
    by (apply ratio_unit; [apply mode_count_le | lia]).
  destruct (range_nonneg f Hf) as [d [Hd Hd0]]. rewrite Hd.
  assert (0 <= IZR d) by (apply (IZR_le 0); exact Hd0).
  unfold stdev.
  assert (Hc : forall s, 0 <= s -> 0 <= Rmax 0.0 (1.0 - s / 2.0) <= 1)
    by (intros s Hs; unfold Rmax; destruct Rle_dec; lra).
  assert (0 <= Rmax 0.0 (1.0 - IZR d / 4.0) <= 1)
    by (unfold Rmax; destruct Rle_dec; lra).
  specialize (Hc _ H). lra.
Qed.

Lemma round3_unit (x : R) : 0 <= x <= 1 -> 0 <= round3 x <= 1.
Proof.
  intro Hx. unfold round3, Rround_half_even.
  pose proof (base_Int_part (x * 1000)) as [H1 H2].
  set (f := Int_part (x * 1000)) in *.
  assert (Hf0 : (-1 < f)%Z) by (apply lt_IZR; lra).
  assert (Hf1 : (f <= 1000)%Z) by (apply le_IZR; lra).
  assert (Hu : forall z : Z, (0 <= z <= 1000)%Z -> 0 <= IZR z / 1000 <= 1).
  { intros z Hz. assert (0 <= IZR z <= 1000)
      by (split; [apply (IZR_le 0) | apply (IZR_le z 1000)]; lia).
    lra. }
  destruct (Rlt_dec (x * 1000 - IZR f) (1 / 2)); [apply Hu; lia|].
  assert (Hlt : (f < 1000)%Z) by (apply lt_IZR; lra).
  destruct (Rlt_dec (1 / 2) (x * 1000 - IZR f)); [apply Hu; lia|].
  destruct (Z.even f); apply Hu; lia.
Qed.

End ReliabilityFacts.

Section ReliabilityClaims.

Import Consensus Reliability.
Open Scope R_scope.

(** C5 (counterexample): the quality boost is capped by [min(..., 1.0)].
    For the perfect result [3, 3, 3] reached from [1, 3, 5] (range 4 to 0,
    improvement 1) the consensus quality is 1, not the base 1.0 plus the
    proportional boost 0.2. *)
Lemma C5_quality_boost_capped :
  exists cq ed pe fa,
    raw_terms (create_result [3; 3; 3]%Z (inject_Z 3) "perfect_consensus" 2)
      [1; 3; 5]%Z = Some (cq, ed, pe, fa) /\
    cq = 1 /\
    cq <> method_scores "perfect_consensus" + 0.2 * ((4 - 0) / 4).
Proof.
  assert (Hq : assess_consensus_quality 4 0 "perfect_consensus" = 1).
  { unfold assess_consensus_quality, quality_adjustment.
    change (method_scores "perfect_consensus") with 1.0.
    change (0 <? 4)%Z with true. cbv iota.
    unfold Rmin; repeat destruct Rle_dec; lra. }
  eexists _, _, _, _. split; [|split; [reflexivity|]].
  - rewrite <- Hq. reflexivity.
  - change (method_scores "perfect_consensus") with 1.0. lra.
Qed.

(** C5 (amended): whenever the calculator returns (both score lists
    non-empty), the reported overall reliability is
    0.4*cq + 0.3*ed + 0.2*pe + 0.1*fa of the unrounded terms, rounded to
    three decimals; cq = min(base + adj, 1.0) where base is keyed by the
    method string (perfect_consensus 1.0, minor_consensus 0.8,
    extended_consensus 0.5, max_divergence_consensus 0.4, an unlisted name
    such as forced_consensus 0.3) and adj = min(0.2 * (r0 - rf) / r0, 0.2)
    for an original range r0 > 0, else 0; so cq <= 1 and cq exceeds its
    base by at most 0.2.  On an empty list the Python code raises. *)
Theorem C5_reliability_formula (r : consensus_result) (original : list Z) :
  method_scores "perfect_consensus" = 1.0 /\
  method_scores "minor_consensus" = 0.8 /\
  method_scores "extended_consensus" = 0.5 /\
  method_scores "max_divergence_consensus" = 0.4 /\
  method_scores "forced_consensus" = 0.3 /\
  match calculate_adaptive_reliability r original with
  | None => original = [] \/ final_scores r = []
  | Some m =>
      exists r0 rf cq ed pe fa,
        range_of original = Some r0 /\ range_of (final_scores r) = Some rf /\
        raw_terms r original = Some (cq, ed, pe, fa) /\
        overall_reliability m = round3 (0.4 * cq + 0.3 * ed + 0.2 * pe + 0.1 * fa) /\
        consensus_quality m = round3 cq /\
        cq = Rmin (method_scores (consensus_method r)
                   + (if (0 <? r0)%Z
                      then Rmin ((IZR r0 - IZR rf) / IZR r0 * 0.2) 0.2
                      else 0)) 1.0 /\
        cq <= 1 /\
        cq - method_scores (consensus_method r) <= 0.2
  end.
Proof.
  do 5 (split; [reflexivity|]).
  unfold calculate_adaptive_reliability.
  destruct (raw_terms r original) as [[[[cq ed] pe] fa]|] eqn:Hraw.
  - unfold raw_terms in Hraw.
    destruct (range_of original) as [r0|] eqn:E0; [|discriminate Hraw].
    destruct (range_of (final_scores r)) as [rf|] eqn:Ef; [|discriminate Hraw].
    injection Hraw as Hcq Hed Hpe Hfa.
    exists r0, rf, cq, ed, pe, fa.
    split; [reflexivity|]. split; [reflexivity|].
    split; [reflexivity|].
    split; [reflexivity|]. split; [reflexivity|].
    rewrite <- Hcq. unfold assess_consensus_quality.
    split; [reflexivity|].
    pose proof (Rmin_r (method_scores (consensus_method r)
                        + quality_adjustment r0 rf) 1.0).
    pose proof (Rmin_l (method_scores (consensus_method r)
                        + quality_adjustment r0 rf) 1.0).
    pose proof (quality_adjustment_le r0 rf). split; lra.
  - unfold raw_terms in Hraw.
    destruct original as [|x t]; [left; reflexivity|].
    destruct (final_scores r) as [|y u]; [right; reflexivity|].
    discriminate Hraw.
Qed.

(** C7: for a result with a non-empty final list of scale values, any
    method and at least one round, and a non-empty original list of scale
    values, the overall reliability and the four reported sub-scores all
    lie in [0, 1]. *)
Theorem C7_metrics_in_unit_interval (r : consensus_result) (original : list Z) :
  final_scores r <> [] -> forallb allowed (final_scores r) = true ->
  (1 <= processing_rounds r)%nat ->
  original <> [] -> forallb allowed original = true ->
  exists m, calculate_adaptive_reliability r original = Some m /\
    0 <= overall_reliability m <= 1 /\ 0 <= consensus_quality m <= 1 /\
    0 <= evaluator_diversity m <= 1 /\ 0 <= processing_efficiency m <= 1 /\
    0 <= final_agreement m <= 1.
Proof.
  intros Hf Hfa Hr Ho Hoa.
  destruct (range_valid original Ho Hoa) as [r0 [E0 H0]].
  destruct (range_valid (final_scores r) Hf Hfa) as [rf [Ef Hrf]].
  assert (Hrounds : (1 <= Z.of_nat (processing_rounds r))%Z) by lia.
  pose proof (consensus_quality_unit r0 rf (consensus_method r) H0
                ltac:(lia)) as Bq.
  pose proof (diversity_unit original (final_scores r) _ Ho Hf Hrounds) as Bd.
  pose proof (efficiency_unit _ (consensus_method r) Hrounds) as Be.
  pose proof (agreement_unit (final_scores r) Hf) as Ba.
  unfold calculate_adaptive_reliability, raw_terms. rewrite E0, Ef.
  eexists. split; [reflexivity|]. cbn [overall_reliability consensus_quality
    evaluator_diversity processing_efficiency final_agreement].
  split; [|split; [|split; [|split]]]; apply round3_unit; try assumption.
  unfold overall_of, consensus_quality_weight, evaluator_diversity_weight,
    processing_efficiency_weight, final_agreement_weight.
  lra.
Qed.

Lemma C7_metrics_in_unit_interval_witness :
  let r := create_result [3; 3; 5]%Z (Consensus.mean [3; 3; 5]%Z)
             "minor_consensus" 1 in
  final_scores r <> [] /\ forallb allowed (final_scores r) = true /\
  (1 <= processing_rounds r)%nat /\
  [3; 3; 5]%Z <> [] /\ forallb allowed [3; 3; 5]%Z = true /\
  exists m, calculate_adaptive_reliability r [3; 3; 5]%Z = Some m /\
    0 <= overall_reliability m <= 1 /\ 0 <= consensus_quality m <= 1 /\
    0 <= evaluator_diversity m <= 1 /\ 0 <= processing_efficiency m <= 1 /\
    0 <= final_agreement m <= 1.
Proof.
  intro r.
  split; [discriminate|]. split; [reflexivity|]. split; [simpl; lia|].
  split; [discriminate|]. split; [reflexivity|].
  apply (C7_metrics_in_unit_interval r [3; 3; 5]%Z);
    [discriminate | reflexivity | simpl; lia | discriminate | reflexivity].
Defined.

End ReliabilityClaims.

(* ------------------------------------------------------------------ *)
(** * Properties of expansion, aggregation and the typology code *)

Section ProfileFacts.

Import Consensus Pipeline Expand Aggregate Typology.

Lemma assoc_map_dimensions {A} (f : string -> A) (d : string) :
  In d dimensions -> assoc d (map (fun k => (k, f k)) dimensions) = Some (f d).
Proof.
  intros [<-|[<-|[<-|[<-|[<-|[]]]]]]; reflexivity.
Qed.

Lemma weight_of_dimension (d s : string) :
  In d dimensions ->
  weight_of d s = (if String.eqb d s then 0.7 else 0.075)%Q.
Proof.
  intro Hd. unfold weight_of.
  destruct (String.eqb_spec d s) as [<-|_]; [|reflexivity].
  destruct Hd as [<-|[<-|[<-|[<-|[<-|[]]]]]]; reflexivity.
Qed.

Lemma fold_Qplus_ge (l : list Q) (acc : Q) :
  Forall (fun x => 0 <= x)%Q l -> (acc <= fold_left Qplus l acc)%Q.
Proof.
  revert acc. induction l as [|x t IH]; intros acc Hl; simpl.
  - apply Qle_refl.
  - inversion Hl as [|? ? Hx Ht]; subst.
    apply Qle_trans with (acc + x)%Q; [|apply IH; exact Ht].
    rewrite <- (Qplus_0_r acc) at 1. apply Qplus_le_compat; [apply Qle_refl | exact Hx].
Qed.

Lemma spec_weight_pos (d : string) (r : question_result) : (0 < spec_weight d r)%Q.
Proof.
  unfold spec_weight. destruct (String.eqb d _); reflexivity.
Qed.

Lemma weighted_scores_full (rs : list question_result)
    (vec : question_result -> string -> Q) (d : string) :
  In d dimensions ->
  (forall r, In r rs -> assoc d (final_adjusted_scores r) = Some (VNum (vec r d))) ->
  weighted_scores rs d = map (fun r => (vec r d, spec_weight d r)) rs.
Proof.
  intros Hd. induction rs as [|r t IH]; intro Hv; [reflexivity|].
  unfold weighted_scores. simpl. rewrite (Hv r (or_introl eq_refl)).
  unfold weighted_scores in IH. rewrite IH by (intros r' Hr'; apply Hv; right; exact Hr').
  rewrite (weight_of_dimension d _ Hd). reflexivity.
Qed.

End ProfileFacts.

Section ProfileClaims.

Import Consensus Pipeline Expand Aggregate Typology.

(** C6: for a non-empty list of items whose vectors carry a number for
    every dimension, each aggregated trait score is
    clamp_[1,5](sum_i v_i(d) * w_i / sum_i w_i) with w_i = 0.7 when d is the
    item's (mapped) primary dimension and 0.075 otherwise; an item whose
    dimension is missing or not recognised gets weight 0.075 everywhere. *)
Theorem C6_weighted_aggregation (rs : list question_result)
    (vec : question_result -> string -> Q) :
  rs <> [] ->
  (forall r d, In r rs -> In d dimensions ->
     assoc d (final_adjusted_scores r) = Some (VNum (vec r d))) ->
  (forall d, In d dimensions ->
     assoc d (calculate_big5_scores rs) = Some (spec_trait_score vec rs d)) /\
  (forall r d, In d dimensions -> dimension_map (question_dimension r) = None ->
     weight_of d (standard_primary_dimension r) = 0.075%Q /\
     spec_weight d r = 0.075%Q).
Proof.
  intros Hne Hv. split.
  - intros d Hd. unfold calculate_big5_scores.
    rewrite (assoc_map_dimensions (fun d => clamp (weighted_average
               (weighted_scores rs d))) d Hd).
    rewrite (weighted_scores_full rs vec d Hd (fun r Hr => Hv r d Hr Hd)).
    unfold spec_trait_score, weighted_average.
    destruct rs as [|r0 t]; [contradiction|].
    cbv beta iota. rewrite !map_map. cbn [fst snd].
    assert (Hpos : (0 < sum_Q (map (fun r => spec_weight d r) (r0 :: t)))%Q).
    { unfold sum_Q. simpl.
      apply Qlt_le_trans with (0 + spec_weight d r0)%Q.
      - rewrite Qplus_0_l. apply spec_weight_pos.
      - apply fold_Qplus_ge. apply Forall_forall.
        intros x Hx. apply in_map_iff in Hx as [r [<- _]].
        apply Qlt_le_weak, spec_weight_pos. }
    replace (Qle_bool (sum_Q (map (fun r => spec_weight d r) (r0 :: t))) 0) with false.
    + reflexivity.
    + symmetry. apply not_true_iff_false. intro H.
      apply Qle_bool_iff in H. apply (Qlt_not_le _ _ Hpos H).
  - intros r d Hd Hr. unfold spec_weight, weight_of, standard_primary_dimension.
    rewrite Hr. rewrite andb_false_r.
    destruct Hd as [<-|[<-|[<-|[<-|[<-|[]]]]]]; split; reflexivity.
Qed.

Lemma C6_weighted_aggregation_witness :
  [c6_item; c6_other_item] <> [] /\
  (forall r d, In r [c6_item; c6_other_item] -> In d dimensions ->
     assoc d (final_adjusted_scores r) = Some (VNum (c6_vec2 r d))) /\
  assoc "extraversion" (calculate_big5_scores [c6_item; c6_other_item])
    = Some (spec_trait_score c6_vec2 [c6_item; c6_other_item] "extraversion") /\
  assoc "neuroticism" (calculate_big5_scores [c6_item; c6_other_item])
    = Some (spec_trait_score c6_vec2 [c6_item; c6_other_item] "neuroticism") /\
  (spec_trait_score c6_vec2 [c6_item; c6_other_item] "extraversion" == 143 # 31)%Q /\
  (spec_trait_score c6_vec2 [c6_item; c6_other_item] "neuroticism" == 2)%Q /\
  weight_of "extraversion" (standard_primary_dimension c6_other_item) = 0.075%Q /\
  spec_weight "extraversion" c6_other_item = 0.075%Q.
Proof.
  assert (Hv : forall r d, In r [c6_item; c6_other_item] -> In d dimensions ->
            assoc d (final_adjusted_scores r) = Some (VNum (c6_vec2 r d))).
  { intros r d [<-|[<-|[]]] Hd;
      destruct Hd as [<-|[<-|[<-|[<-|[<-|[]]]]]]; reflexivity. }
  pose proof (C6_weighted_aggregation [c6_item; c6_other_item] c6_vec2
                ltac:(discriminate) Hv) as [Hagg Hunk].
  split; [discriminate|]. split; [exact Hv|].
  split; [apply Hagg; right; right; left; reflexivity|].
  split; [apply Hagg; right; right; right; right; left; reflexivity|].
  split; [vm_compute; reflexivity|].
  split; [vm_compute; reflexivity|].
  apply (Hunk c6_other_item "extraversion"%string); [right; right; left; reflexivity|].
  reflexivity.
Defined.

End ProfileClaims.

Section ExpansionClaims.

Import Consensus Pipeline Expand Aggregate.
Open Scope Z_scope.

(** C8 (counterexample): the engine's minor-consensus result for [1, 3, 3]
    has score 2.33, whose nearest scale value is 3, but the neutral-fill
    expansion gives the primary dimension [int(round(2.33))] = 2, forced
    to 1. *)
Lemma C8_primary_not_nearest :
  exists res,
    adaptive_consensus 1 req_1_5 [1; 3; 3] = Done res /\
    consensus_score res = (233 # 100)%Q /\
    assoc "agreeableness" (expand_original (consensus_score res) "Agreeableness")
      = Some 1 /\
    nearest_scale_value (consensus_score res) = 3.
Proof.
  eexists. split; [vm_compute; reflexivity|].
  split; [reflexivity|]. split; vm_compute; reflexivity.
Qed.

(** C8 (amended): for every consensus score and item dimension, the
    expanded vector has exactly the five standard keys in order; a standard
    dimension equal to the item's primary dimension
    ([dimension_map.get(d, d)]) gets the score rounded half to even and
    then forced onto the scale (kept if 1, 3 or 5, else 1 if at most 2 and
    5 if at least 4), every other dimension gets 3; the forced value is
    always 1, 3 or 5. *)
Theorem C8_neutral_fill (cs : Q) (dim : string) :
  map fst (expand_original cs dim) = dimensions /\
  List.length (expand_original cs dim) = 5%nat /\
  (forall d, In d dimensions ->
     assoc d (expand_original cs dim) =
       Some (if String.eqb d (get_primary_dimension dim)
             then snap_score (round_half_even cs) else 3)) /\
  (forall z, snap_score z = (if allowed z then z
                             else if z <=? 2 then 1 else 5) /\
             allowed (snap_score z) = true).
Proof.
  split; [|split; [|split]].
  - unfold expand_original. rewrite map_map. simpl. reflexivity.
  - reflexivity.
  - intros d Hd. unfold expand_original.
    exact (assoc_map_dimensions (fun dimension =>
             if String.eqb dimension (get_primary_dimension dim)
             then snap_score (round_half_even cs) else 3) d Hd).
  - intro z. unfold snap_score, allowed.
    destruct (z =? 1) eqn:E1; [apply Z.eqb_eq in E1; subst; split; reflexivity|].
    destruct (z =? 3) eqn:E3; [apply Z.eqb_eq in E3; subst; split; reflexivity|].
    destruct (z =? 5) eqn:E5; [apply Z.eqb_eq in E5; subst; split; reflexivity|].
    cbn [orb].
    destruct (z <=? 2) eqn:E2; [split; reflexivity|].
    destruct (4 <=? z) eqn:E4; [split; reflexivity|].
    apply Z.eqb_neq in E3. apply Z.leb_gt in E2. apply Z.leb_gt in E4. lia.
Qed.

End ExpansionClaims.

Section TypologyClaims.

Import Aggregate Typology.
Open Scope Q_scope.

(** C9: the typology code depends only on the five trait scores read from
    the dict (missing keys read as 3; an empty dict gives Unknown): it is
    'E' if E + (5 - N) > (5 - E) + N else 'I', then 'S' if O <= 3 else 'N',
    then 'T' if A <= 3 else 'F', then 'J' if C > 3 else 'P'; on a full
    trait dict it is exactly that code of its five values. *)
Theorem C9_typology_code :
  (forall big5,
     infer_mbti_type big5 =
       match big5 with
       | [] => "Unknown"%string
       | _ => spec_code (trait big5 "extraversion")
                (trait big5 "openness_to_experience")
                (trait big5 "conscientiousness")
                (trait big5 "agreeableness") (trait big5 "neuroticism")
       end) /\
  (forall E O C A N, infer_mbti_type (big5_dict E O C A N) = spec_code E O C A N).
Proof.
  split.
  - intros [|e t]; reflexivity.
  - intros E O C A N. reflexivity.
Qed.

End TypologyClaims.

Section DivergenceFacts.

Import Consensus Divergence.
Open Scope Z_scope.

Lemma insert_by_bias_perm (p : Z * Q) (l : list (Z * Q)) :
  Permutation (insert_by_bias p l) (p :: l).
Proof.
  induction l as [|q t IH]; simpl; [reflexivity|].
  destruct (Qle_bool (snd p) (snd q)); [reflexivity|].
  rewrite IH. apply perm_swap.
Qed.

Lemma sort_by_bias_perm (l : list (Z * Q)) : Permutation (sort_by_bias l) l.
Proof.
  induction l as [|p t IH]; simpl; [reflexivity|].
  rewrite insert_by_bias_perm. apply perm_skip, IH.
Qed.

Fixpoint sorted_bias (l : list (Z * Q)) : Prop :=
  match l with
  | [] => True
  | p :: t => Forall (fun q => (snd p <= snd q)%Q) t /\ sorted_bias t
  end.

Lemma insert_by_bias_sorted (p : Z * Q) (l : list (Z * Q)) :
  sorted_bias l -> sorted_bias (insert_by_bias p l).
Proof.
  induction l as [|q t IH]; simpl; intro Hs; [split; constructor|].
  destruct Hs as [Hq Ht].
  destruct (Qle_bool (snd p) (snd q)) eqn:E.
  - apply Qle_bool_iff in E. split; [|split; assumption].
    constructor; [exact E|].
    apply Forall_forall. intros x Hx.
    apply Qle_trans with (snd q); [exact E|]. exact (proj1 (Forall_forall _ _) Hq x Hx).
  - split; [|exact (IH Ht)].
    apply Forall_forall. intros x Hx.
    apply (Permutation_in _ (insert_by_bias_perm p t)) in Hx.
    destruct Hx as [<-|Hx].
    + apply Qlt_le_weak. apply Qnot_le_lt. intro C.
      apply Qle_bool_iff in C. congruence.
    + exact (proj1 (Forall_forall _ _) Hq x Hx).
Qed.

Lemma sort_by_bias_sorted (l : list (Z * Q)) : sorted_bias (sort_by_bias l).
Proof.
  induction l as [|p t IH]; simpl; [exact I|]. apply insert_by_bias_sorted, IH.
Qed.

Lemma sorted_bias_app (a b : list (Z * Q)) :
  sorted_bias (a ++ b) ->
  forall p q, In p a -> In q b -> (snd p <= snd q)%Q.
Proof.
  induction a as [|x a IH]; simpl; intros Hs p q Hp Hq; [contradiction|].
  destruct Hs as [Hx Hr]. destruct Hp as [<-|Hp].
  - exact (proj1 (Forall_forall _ _) Hx q (in_or_app _ _ _ (or_intror Hq))).
  - exact (IH Hr p q Hp Hq).
Qed.

Lemma remove_max_bias_length (scores kept : list Z) (rc : nat) :
  (0 < rc)%nat -> remove_max_bias scores rc = Some kept ->
  List.length kept = (List.length scores - rc)%nat.
Proof.
  intros Hrc H. unfold remove_max_bias in H.
  destruct (List.length scores <=? rc)%nat eqn:E; [discriminate|].
  injection H as <-. apply Nat.leb_gt in E.
  unfold drop_last. destruct rc as [|rc']; [lia|].
  rewrite length_map, length_firstn.
  rewrite (Permutation_length (sort_by_bias_perm _)), length_map. lia.
Qed.

Lemma remove_max_bias_some (scores : list Z) (rc : nat) :
  (rc < List.length scores)%nat -> exists kept, remove_max_bias scores rc = Some kept.
Proof.
  intro H. unfold remove_max_bias.
  replace (List.length scores <=? rc)%nat with false by (symmetry; apply Nat.leb_gt; exact H).
  eexists; reflexivity.
Qed.

Lemma finish_done (s : list Z) (rc : nat) (m : string) (rn calls : nat) :
  (0 < rc)%nat -> (rc < List.length s)%nat ->
  exists r, finish s rc m rn calls = HDone r calls /\
    consensus_method r = m /\
    List.length (final_scores r) = (List.length s - rc)%nat /\
    evaluator_count r = List.length (final_scores r).
Proof.
  intros H1 H2. destruct (remove_max_bias_some s rc H2) as [kept Hk].
  unfold finish. rewrite Hk. eexists. split; [reflexivity|]. simpl.
  split; [reflexivity|].
  split; [exact (remove_max_bias_length s kept rc H1 Hk) | reflexivity].
Qed.

End DivergenceFacts.

Section DivergenceExtras.

Import Consensus Divergence.
Open Scope Z_scope.

(** [_remove_max_bias(scores, n)] raises exactly when [len(scores) <= n].
    Otherwise it keeps [len(scores) - n] scores ([n] >= 1; with [n = 0]
    the slice [[:-0]] keeps none), the kept and the removed scores together
    are a rearrangement of the input, and no kept score lies farther from
    the median than a removed one. *)
Theorem remove_max_bias_spec (scores : list Z) (rc : nat) :
  match remove_max_bias scores rc with
  | None => (List.length scores <= rc)%nat
  | Some kept =>
      (rc < List.length scores)%nat /\
      List.length kept = (if (rc =? 0)%nat then 0 else List.length scores - rc)%nat /\
      exists removed,
        Permutation (kept ++ removed) scores /\
        forall x y, In x kept -> In y removed ->
          (bias (median scores) x <= bias (median scores) y)%Q
  end.
Proof.
  unfold remove_max_bias.
  destruct (List.length scores <=? rc)%nat eqn:E; [apply Nat.leb_le; exact E|].
  apply Nat.leb_gt in E. split; [exact E|].
  set (m := median scores).
  set (pairs := map (fun s => (s, bias m s)) scores).
  set (sorted := sort_by_bias pairs).
  assert (Hperm : Permutation sorted pairs) by apply sort_by_bias_perm.
  assert (Hfst : map fst pairs = scores).
  { unfold pairs. rewrite map_map. simpl. apply map_id. }
  assert (Hsnd : forall p, In p sorted -> snd p = bias m (fst p)).
  { intros p Hp. apply (Permutation_in _ Hperm) in Hp.
    unfold pairs in Hp. apply in_map_iff in Hp as [s [<- _]]. reflexivity. }
  assert (Hlen : List.length sorted = List.length scores).
  { rewrite (Permutation_length Hperm). unfold pairs. apply length_map. }
  destruct rc as [|rc'].
  - simpl. split; [reflexivity|]. exists scores. split; [reflexivity|].
    intros x y [].
  - unfold drop_last. set (n := (List.length sorted - S rc')%nat).
    split.
    + rewrite length_map, length_firstn. simpl. lia.
    + exists (map fst (skipn n sorted)). split.
      * rewrite <- map_app, firstn_skipn, <- Hfst.
        apply Permutation_map, Hperm.
      * intros x y Hx Hy.
        apply in_map_iff in Hx as [p [<- Hp]].
        apply in_map_iff in Hy as [q [<- Hq]].
        pose proof (sort_by_bias_sorted pairs) as Hs. fold sorted in Hs.
        rewrite <- (firstn_skipn n sorted) in Hs.
        pose proof (sorted_bias_app _ _ Hs p q Hp Hq) as Hpq.
        assert (Hin : forall r, In r (firstn n sorted) \/ In r (skipn n sorted) ->
                  In r sorted).
        { intros r Hr. rewrite <- (firstn_skipn n sorted).
          apply in_or_app. exact Hr. }
        rewrite (Hsnd p (Hin p (or_introl Hp))) in Hpq.
        rewrite (Hsnd q (Hin q (or_intror Hq))) in Hpq. exact Hpq.
Qed.

(** When every call of [get_additional_scores] answers two scores and the
    list is not empty, [_handle_major_disagreement] returns after one or
    two calls, with method extended, bias_removed, final or
    max_divergence consensus: the forced_consensus branch of
    [_handle_still_divided] (seven evaluators) is never reached.  From
    three scores the result always holds three scores. *)
Theorem major_disagreement_never_forced (scores : list Z) (req : requester)
    (round_num k : nat) :
  scores <> [] ->
  (forall j n, exists l, req j n = Some l /\ List.length l = 2%nat) ->
  exists r calls,
    handle_major_disagreement scores req round_num k = HDone r calls /\
    (S k <= calls <= S (S k))%nat /\
    In (consensus_method r)
      ["extended_consensus"; "bias_removed_consensus"; "final_consensus";
       "max_divergence_consensus"]%string /\
    evaluator_count r = List.length (final_scores r) /\
    (List.length scores = 3%nat -> List.length (final_scores r) = 3%nat).
Proof.
  intros Hne Hreq. unfold handle_major_disagreement.
  assert (Hother : exists r calls,
    (match req k 2%nat with
     | Some new_scores =>
         finish (scores ++ new_scores) 2 "max_divergence_consensus" round_num (S k)
     | None => HRaised HEvaluatorFailure
     end) = HDone r calls /\
    (S k <= calls <= S (S k))%nat /\
    In (consensus_method r)
      ["extended_consensus"; "bias_removed_consensus"; "final_consensus";
       "max_divergence_consensus"]%string /\
    evaluator_count r = List.length (final_scores r) /\
    (List.length scores = 3%nat -> List.length (final_scores r) = 3%nat)).
  { destruct (Hreq k 2%nat) as [l [Hl Hlen]]. rewrite Hl.
    destruct scores as [|x t]; [contradiction|].
    destruct (finish_done ((x :: t) ++ l) 2 "max_divergence_consensus" round_num (S k))
      as [r [Hr [Hm [Hlr He]]]];
      [lia | rewrite length_app; simpl; lia|].
    exists r, (S k). split; [exact Hr|]. split; [lia|].
    split; [rewrite Hm; simpl; tauto|]. split; [exact He|].
    intro H3. rewrite Hlr, length_app, H3, Hlen. reflexivity. }
  destruct (counter scores) as [|[a ca] [|[b cb] [|x t]]]; try exact Hother.
  destruct (if (ca <? cb)%nat then (b, a) else (a, b)) as [common uncommon].
  destruct (Hreq k 2%nat) as [l [Hl Hlen]]. rewrite Hl.
  destruct (fold_left Z.max l common - fold_left Z.min l common <=? 2).
  - eexists _, (S k). split; [reflexivity|]. simpl. split; [lia|].
    split; [tauto|]. split; [reflexivity|]. intros _. rewrite Hlen. reflexivity.
  - unfold handle_still_divided.
    destruct (Qle_bool _ 2).
    + destruct (finish_done ((common :: l) ++ [uncommon]) 1 "bias_removed_consensus"
                  round_num (S k)) as [r [Hr [Hm [Hlr He]]]];
        [lia | rewrite length_app; simpl; lia|].
      rewrite Hr. exists r, (S k). split; [reflexivity|]. split; [lia|].
      split; [rewrite Hm; simpl; tauto|]. split; [exact He|].
      intros _. rewrite Hlr, length_app. simpl. lia.
    + replace (List.length (common :: l) <? 7)%nat with true
        by (simpl; rewrite Hlen; reflexivity).
      destruct (Hreq (S k) 2%nat) as [l' [Hl' Hlen']]. rewrite Hl'.
      destruct (finish_done ((common :: l) ++ l') 2 "final_consensus"
                  round_num (S (S k))) as [r [Hr [Hm [Hlr He]]]];
        [lia | rewrite length_app; simpl; lia|].
      rewrite Hr. exists r, (S (S k)). split; [reflexivity|]. split; [lia|].
      split; [rewrite Hm; simpl; tauto|]. split; [exact He|].
      intros _. rewrite Hlr, length_app. simpl. lia.
Qed.

Lemma major_disagreement_never_forced_witness :
  [1; 1; 5] <> [] /\
  (forall j n, exists l, req_1_5 j n = Some l /\ List.length l = 2%nat) /\
  exists r calls,
    handle_major_disagreement [1; 1; 5] req_1_5 1 0 = HDone r calls /\
    (1 <= calls <= 2)%nat /\
    In (consensus_method r)
      ["extended_consensus"; "bias_removed_consensus"; "final_consensus";
       "max_divergence_consensus"]%string /\
    evaluator_count r = List.length (final_scores r) /\
    (List.length [1; 1; 5] = 3%nat -> List.length (final_scores r) = 3%nat).
Proof.
  assert (Hreq : forall j n, exists l, req_1_5 j n = Some l /\ List.length l = 2%nat)
    by (intros j n; exists [1; 5]; split; reflexivity).
  split; [discriminate|]. split; [exact Hreq|].
  exact (major_disagreement_never_forced [1; 1; 5] req_1_5 1 0
           ltac:(discriminate) Hreq).
Defined.

End DivergenceExtras.

Section QualityExtras.

Import QualityMetrics.
Open Scope R_scope.

(** For three scores, [_calculate_quality_metrics] reports agreement
    level high when all three agree, medium when exactly two agree and low
    when all differ, and a consensus strength in [0, 1]. *)
Theorem quality_metrics_three_scores (a b c : Z) :
  agreement_level (calculate_quality_metrics [a; b; c]) =
    (if (a =? b)%Z && (b =? c)%Z then "high"
     else if (a =? b)%Z || (b =? c)%Z || (a =? c)%Z then "medium"
     else "low")%string /\
  0 <= consensus_strength (calculate_quality_metrics [a; b; c]) <= 1.
Proof.
  unfold calculate_quality_metrics. cbn [List.length Nat.ltb Nat.leb].
  cbn [agreement_level consensus_strength]. split.
  - unfold Reliability.mode_count. simpl fold_left.
    assert (I3 : INR 3 = 3) by (simpl; ring).
    assert (I2 : INR 2 = 2) by (simpl; ring).
    assert (I1 : INR 1 = 1) by reflexivity.
    destruct (Z.eqb_spec a b); destruct (Z.eqb_spec b c); destruct (Z.eqb_spec a c);
      try (exfalso; lia); simpl;
    repeat match goal with
           | |- context [Z.eq_dec ?x ?y] => destruct (Z.eq_dec x y); try (exfalso; lia)
           end; simpl Nat.max;
    rewrite ?I1, ?I2, ?I3;
    repeat (destruct Rle_dec; try lra); reflexivity.
  - apply round3_unit.
    pose proof (sqrt_pos (fold_left (fun acc x =>
      acc + (IZR x - Reliability.sum_R [a; b; c] / INR (List.length [a; b; c])) ^ 2)
      [a; b; c] 0 / (INR (List.length [a; b; c]) - 1))).
    unfold Reliability.stdev. unfold Rmax. destruct Rle_dec; lra.
Qed.

End QualityExtras.

Section ParsingFacts.

Import Consensus Pipeline Aggregate Parsing.
Open Scope Z_scope.

Lemma scan_patterns_shape (v : response_view) (ps : list string) :
  scan_patterns v ps = [] \/ exists d s, scan_patterns v ps = [(d, s)].
Proof.
  induction ps as [|p t IH]; simpl; [left; reflexivity|].
  destruct (search v p) as [s|]; [|exact IH].
  destruct (pattern_to_dimension p) as [d|]; [|exact IH].
  right. exists d, s. reflexivity.
Qed.

Lemma validate_single (d : string) (s : Z) : validate_scores [(d, s)] = false.
Proof.
  unfold validate_scores, dimensions. simpl.
  destruct (String.eqb_spec d "openness_to_experience") as [->|_]; [|reflexivity].
  rewrite andb_false_r. reflexivity.
Qed.

Lemma validate_uniform (n : Z) :
  validate_scores (map (fun d => (d, n)) dimensions) = (1 <=? n) && (n <=? 5).
Proof.
  unfold validate_scores, dimensions. simpl.
  destruct ((1 <=? n) && (n <=? 5)); reflexivity.
Qed.

Lemma parse_valid_uniform (v : response_view) :
  validate_scores (parse_scores_from_response v) = true ->
  scan_patterns v patterns = [] /\
  exists score rest, numbers v = score :: rest /\ 1 <= score <= 5 /\
    parse_scores_from_response v = map (fun d => (d, score)) dimensions.
Proof.
  unfold parse_scores_from_response.
  destruct (scan_patterns_shape v patterns) as [E|[d [s E]]]; rewrite E.
  - destruct (numbers v) as [|n rest]; [discriminate|].
    rewrite validate_uniform. intro H. apply andb_true_iff in H as [H1 H2].
    apply Z.leb_le in H1, H2. split; [reflexivity|].
    exists n, rest. split; [reflexivity|]. split; [lia | reflexivity].
  - rewrite validate_single. discriminate.
Qed.

Lemma first_valid_uniform (generate : string -> option response_view)
    (models : list string) (scores : list (string * Z)) :
  first_valid generate models = Some scores ->
  exists m response score,
    In m models /\ generate m = Some response /\
    scan_patterns response patterns = [] /\ hd_error (numbers response) = Some score /\
    1 <= score <= 5 /\ scores = map (fun d => (d, score)) dimensions.
Proof.
  induction models as [|m t IH]; simpl; [discriminate|].
  destruct (generate m) as [response|] eqn:G.
  - destruct (validate_scores (parse_scores_from_response response)) eqn:V.
    + intro H. injection H as <-.
      destruct (parse_valid_uniform response V) as [Hs [score [rest [Hn [Hb Hp]]]]].
      exists m, response, score. rewrite Hn. auto 7.
    + intro H. destruct (IH H) as [m' [r' [s' [Hin R]]]].
      exists m', r', s'. auto.
  - intro H. destruct (IH H) as [m' [r' [s' [Hin R]]]].
    exists m', r', s'. auto.
Qed.

Lemma snap_allowed (z : Z) : allowed (snap_score z) = true.
Proof.
  unfold snap_score. destruct (allowed z) eqn:A; [exact A|].
  destruct (z <=? 2); [reflexivity|]. destruct (4 <=? z); reflexivity.
Qed.

Lemma get_additional_scores_valid (evaluate : nat -> evaluation) (p : string) (n : nat) :
  List.length (get_additional_scores evaluate p n) = n /\
  forallb allowed (get_additional_scores evaluate p n) = true.
Proof.
  unfold get_additional_scores. rewrite length_map, length_seq. split; [reflexivity|].
  apply forallb_forall. intros x Hx. apply in_map_iff in Hx as [i [<- _]].
  destruct (evaluate i); [apply snap_allowed | reflexivity].
Qed.

Lemma get_initial_scores_valid (evaluate : nat -> evaluation) (p : string) :
  List.length (get_initial_scores evaluate p) = 3%nat /\
  forallb allowed (get_initial_scores evaluate p) = true.
Proof.
  unfold get_initial_scores. rewrite length_map, length_seq. split; [reflexivity|].
  apply forallb_forall. intros x Hx. apply in_map_iff in Hx as [i [<- _]].
  destruct (evaluate i); [apply snap_allowed | reflexivity].
Qed.

Lemma process_no_engine_error (req : requester) (fuel k : nat) (s : list Z) (r : nat) :
  (forall j, exists l, req j 2%nat = Some l /\ (List.length l <= 2)%nat /\
                       forallb allowed l = true) ->
  small_valid s ->
  match process fuel req k s r with
  | Raised _ => False
  | Done res => forallb allowed (final_scores res) = true
  | OutOfFuel _ _ => True
  end.
Proof.
  intro Hreq. revert k s r. induction fuel as [|fuel IH]; intros k s r Hs; simpl; [exact I|].
  pose proof (small_valid_round_ok s Hs) as Hok.
  unfold round_ok in Hok.
  destruct (round_step s) as [cs m|c|e|] eqn:Hstep.
  - simpl. exact (proj1 Hs).
  - destruct (Hreq k) as [l [Hl [Hlen Hall]]]. rewrite Hl.
    apply IH. exact (small_valid_step s l c Hs Hstep Hlen Hall).
  - rewrite andb_false_r in Hok. discriminate.
  - rewrite andb_false_r in Hok. discriminate.
Qed.

Lemma dict_get_uniform_other (p : string) (v : Z) :
  ~ In p dimensions -> dict_get p (map (fun d => (d, v)) dimensions) 3 = 3.
Proof.
  intro Hp. unfold dimensions in *. cbn [map dict_get].
  repeat match goal with
         | |- context [String.eqb ?a p] =>
             destruct (String.eqb_spec a p) as [E|_]; [exfalso; apply Hp; rewrite <- E; simpl; tauto|]
         end.
  reflexivity.
Qed.

Lemma map_dimension_name_primary (x : string) :
  map_dimension_name (get_primary_dimension x) = get_primary_dimension x.
Proof.
  unfold get_primary_dimension. destruct (dimension_map x) as [d|] eqn:E.
  - unfold dimension_map in E.
    repeat match type of E with
           | context [String.eqb x ?a] => destruct (String.eqb x a)
           end; try discriminate; injection E as <-; reflexivity.
  - unfold map_dimension_name. rewrite E. reflexivity.
Qed.

Lemma all_some_None {A} (l : list (option A)) : In None l -> all_some l = None.
Proof.
  induction l as [|[x|] t IH]; simpl; intro H; [contradiction| |reflexivity].
  destruct H as [H|H]; [discriminate|]. rewrite (IH H). reflexivity.
Qed.

Lemma all_some_map_Some {A B} (f : A -> B) (l : list A) :
  all_some (map (fun x => Some (f x)) l) = Some (map f l).
Proof.
  induction l as [|x t IH]; simpl; [reflexivity|]. rewrite IH. reflexivity.
Qed.

End ParsingFacts.

Section ParsingExtras.

Import Consensus Pipeline Aggregate Parsing.
Open Scope Z_scope.

(** [_validate_scores] accepts a parsed response only when no pattern
    naming a dimension matched (a named match yields a single entry, the
    short O/C/E/A/N patterns name none) and the response has a digit 1-5:
    the accepted dict gives that first digit to all five dimensions.  So
    every dict [evaluate_single_question] returns gives one value in
    1..5 to all five dimensions. *)
Theorem accepted_scores_are_uniform (v : response_view)
    (generate : string -> option response_view) (model : string)
    (scores : list (string * Z)) :
  (validate_scores (parse_scores_from_response v) = true ->
   scan_patterns v patterns = [] /\
   exists score, hd_error (numbers v) = Some score /\ 1 <= score <= 5 /\
     parse_scores_from_response v = map (fun d => (d, score)) dimensions) /\
  (evaluate_single_question generate model = Some scores ->
   exists score, 1 <= score <= 5 /\ scores = map (fun d => (d, score)) dimensions).
Proof.
  split.
  - intro H. destruct (parse_valid_uniform v H) as [Hs [score [rest [Hn [Hb Hp]]]]].
    split; [exact Hs|]. exists score. rewrite Hn. auto.
  - intro H. destruct (first_valid_uniform generate _ scores H)
      as [m [r [score [_ [_ [_ [_ [Hb Hs]]]]]]]].
    exists score. auto.
Qed.

(** The consensus run of [_get_adaptive_consensus] never stops with one of
    the engine's errors (the [ValueError] of an invalid input or of a
    spread outside the expected values, the empty-list error, a failed
    request_more), whatever the evaluations answer, also when they answer
    differently in every call of [_get_additional_scores]: the initial list
    is three scale values and each request_more answers two scale values.
    After any number of rounds the run has returned a result whose final
    scores are all 1, 3 or 5, or is still recursing; a recursion without
    end is stopped by Python's [RecursionError], outside the engine. *)
Theorem adaptive_consensus_run_no_engine_error (fuel : nat)
    (evaluate_init : nat -> evaluation) (evaluate_more : nat -> nat -> evaluation)
    (question_dimension : string) :
  match get_adaptive_consensus fuel evaluate_init evaluate_more question_dimension with
  | Raised _ => False
  | Done res => forallb allowed (final_scores res) = true
  | OutOfFuel _ _ => True
  end.
Proof.
  unfold get_adaptive_consensus, adaptive_consensus.
  destruct (get_initial_scores_valid evaluate_init (get_primary_dimension question_dimension))
    as [Hl Ha].
  rewrite Hl, Ha. simpl.
  apply process_no_engine_error.
  - intro j. unfold pipeline_requester. eexists. split; [reflexivity|].
    destruct (get_additional_scores_valid (evaluate_more j)
                (get_primary_dimension question_dimension) 2) as [L A].
    rewrite L. split; [lia | exact A].
  - split; [exact Ha | rewrite Hl; lia].
Qed.

(** An item whose dimension does not map to one of the five standard
    names gets the neutral 3 from every evaluation (the uniform dicts carry
    only the standard keys), so with [evaluate_single_question] as the
    evaluator the consensus is a perfect consensus of [3, 3, 3] in round 1. *)
Theorem unknown_dimension_gives_perfect_three (fuel : nat)
    (gen_init : nat -> string -> option response_view)
    (gen_more : nat -> nat -> string -> option response_view)
    (model_init : nat -> string) (model_more : nat -> nat -> string)
    (question_dimension : string) :
  ~ In (get_primary_dimension question_dimension) dimensions ->
  exists res,
    get_adaptive_consensus (S fuel)
      (fun i => evaluate_single_question (gen_init i) (model_init i))
      (fun k i => evaluate_single_question (gen_more k i) (model_more k i))
      question_dimension = Done res /\
    final_scores res = [3; 3; 3] /\
    consensus_method res = "perfect_consensus"%string /\
    processing_rounds res = 1%nat /\
    (consensus_score res == 3)%Q.
Proof.
  intro Hp.
  assert (Hinit : get_initial_scores
            (fun i => evaluate_single_question (gen_init i) (model_init i))
            (get_primary_dimension question_dimension) = [3; 3; 3]).
  { unfold get_initial_scores. simpl.
    assert (E : forall i, match evaluate_single_question (gen_init i) (model_init i) with
                          | None => 3
                          | Some scores => snap_score
                              (dict_get (get_primary_dimension question_dimension) scores 3)
                          end = 3).
    { intro i. destruct (evaluate_single_question (gen_init i) (model_init i)) as [s|] eqn:Ev;
        [|reflexivity].
      destruct (first_valid_uniform _ _ s Ev) as [m [r [score [_ [_ [_ [_ [_ ->]]]]]]]].
      rewrite (dict_get_uniform_other _ score Hp). reflexivity. }
    rewrite !E. reflexivity. }
  unfold get_adaptive_consensus. rewrite Hinit.
  eexists. split; [reflexivity|]. simpl.
  split; [reflexivity|]. split; [reflexivity|]. split; [reflexivity|].
  reflexivity.
Qed.

(** With precision preserved, when no stored per-model scores match the
    item, the improved expansion keeps the consensus score unrounded on
    the primary dimension and gives every other dimension 3.0; when a
    matching stored dict lacks a non-primary dimension, it raises
    [KeyError]. *)
Theorem improved_expansion_spec (consensus_score : Q) (question_dimension question_id : string)
    (individual_model_scores : list (list stored_score)) :
  (get_all_model_scores individual_model_scores question_id = [] ->
   expand_improved true consensus_score question_dimension question_id individual_model_scores
   = Some (map (fun d => (d, if String.eqb d (get_primary_dimension question_dimension)
                             then consensus_score else 3%Q)) dimensions)) /\
  (forall model d, In model (get_all_model_scores individual_model_scores question_id) ->
     In d dimensions -> d <> get_primary_dimension question_dimension ->
     assoc d model = None ->
     expand_improved true consensus_score question_dimension question_id
       individual_model_scores = None).
Proof.
  unfold expand_improved. cbn [negb]. rewrite map_dimension_name_primary. split.
  - intro H. rewrite H.
    rewrite <- (all_some_map_Some (fun d => (d, if String.eqb d (get_primary_dimension question_dimension)
                             then consensus_score else 3%Q))).
    f_equal. apply map_ext. intro d. destruct (String.eqb _ _); reflexivity.
  - intros model d Hm Hd Hne Ha. apply all_some_None.
    apply in_map_iff. exists d. split; [|exact Hd].
    destruct (String.eqb_spec d (get_primary_dimension question_dimension)) as [E|_];
      [contradiction|].
    destruct (get_all_model_scores individual_model_scores question_id) as [|m0 t];
      [contradiction|].
    rewrite all_some_None; [reflexivity|].
    apply in_map_iff. exists model. split; [exact Ha | exact Hm].
Qed.

Lemma unknown_dimension_gives_perfect_three_witness :
  ~ In (get_primary_dimension "honesty") dimensions /\
  exists res,
    get_adaptive_consensus 1
      (fun i => evaluate_single_question (fun _ => Some all_five_view) "gpt-oss:120b-cloud")
      (fun k i => evaluate_single_question (fun _ => Some all_five_view) "gpt-oss:120b-cloud")
      "honesty" = Done res /\
    final_scores res = [3; 3; 3] /\
    consensus_method res = "perfect_consensus"%string /\
    processing_rounds res = 1%nat /\
    (consensus_score res == 3)%Q.
Proof.
  assert (H : ~ In (get_primary_dimension "honesty") dimensions).
  { vm_compute. intros [H|[H|[H|[H|[H|[]]]]]]; discriminate H. }
  split; [exact H|].
  exact (unknown_dimension_gives_perfect_three 0 (fun _ _ => Some all_five_view)
           (fun _ _ _ => Some all_five_view) (fun _ => "gpt-oss:120b-cloud"%string)
           (fun _ _ => "gpt-oss:120b-cloud"%string) "honesty" H).
Defined.

End ParsingExtras.

Section SmartFacts.

Import Consensus Pipeline Aggregate Smart.
Open Scope Z_scope.

Lemma trait_scores_length (all_scores : list (list (string * Z))) (t : string) :
  (List.length (trait_scores all_scores t) <= List.length all_scores)%nat.
Proof.
  induction all_scores as [|s l IH]; simpl; [lia|].
  destruct (assoc t s); simpl; lia.
Qed.

Lemma insert_sorted_perm (x : Z) (l : list Z) : Permutation (insert_sorted x l) (x :: l).
Proof.
  induction l as [|y t IH]; simpl; [reflexivity|].
  destruct (x <=? y); [reflexivity|].
  rewrite IH. apply perm_swap.
Qed.

Lemma sort_perm (l : list Z) : Permutation (sort l) l.
Proof.
  induction l as [|x t IH]; simpl; [reflexivity|].
  rewrite insert_sorted_perm, IH. reflexivity.
Qed.

Lemma fold_add_acc (l : list Z) (acc : Z) :
  fold_left Z.add l acc = acc + fold_left Z.add l 0.
Proof.
  revert acc. induction l as [|x t IH]; intro acc; simpl; [lia|].
  rewrite (IH (acc + x)), (IH x). lia.
Qed.

Lemma sum_Z_bounds (l : list Z) (lo hi : Z) :
  Forall (fun v => lo <= v <= hi) l ->
  lo * Z.of_nat (List.length l) <= sum_Z l <= hi * Z.of_nat (List.length l).
Proof.
  unfold sum_Z. induction 1 as [|x t Hx Ht IH]; simpl; [lia|].
  rewrite fold_add_acc. lia.
Qed.

Lemma round_half_even_bounds (q : Q) (lo hi : Z) :
  (inject_Z lo <= q)%Q -> (q <= inject_Z hi)%Q -> lo <= round_half_even q <= hi.
Proof.
  intros H1 H2. unfold round_half_even.
  pose proof (Qfloor_le q) as F1. pose proof (Qlt_floor q) as F2.
  set (f := Qfloor q) in *.
  assert (Hlo : lo <= f).
  { assert (lo < f + 1); [|lia]. rewrite Zlt_Qlt. Lqa.lra. }
  assert (Hhi : f <= hi) by (rewrite Zle_Qle; Lqa.lra).
  assert (Hup : (1 # 2 <= q - inject_Z f)%Q -> f + 1 <= hi).
  { intro H. assert (f < hi); [|lia]. rewrite Zlt_Qlt. Lqa.lra. }
  destruct (Qle_bool (1 # 2) (q - inject_Z f)) eqn:E1; simpl; [|lia].
  apply Qle_bool_iff in E1. specialize (Hup E1).
  destruct (Qle_bool (q - inject_Z f) (1 # 2)); simpl; [|lia].
  destruct (Z.even f); lia.
Qed.

Lemma round_half_even_int (z : Z) : round_half_even (inject_Z z / inject_Z 1) = z.
Proof.
  pose proof (round_half_even_bounds (inject_Z z / inject_Z 1) z z) as H.
  assert (E : (inject_Z z / inject_Z 1 == inject_Z z)%Q).
  { unfold Qdiv. simpl. rewrite Qmult_1_r. reflexivity. }
  destruct H as [A B]; [rewrite E; apply Qle_refl | rewrite E; apply Qle_refl | lia].
Qed.

Lemma mean_bounds (l : list Z) (lo hi : Z) :
  l <> [] -> Forall (fun v => lo <= v <= hi) l ->
  lo <= round_half_even (inject_Z (sum_Z l) / inject_Z (Z.of_nat (List.length l)))%Q <= hi.
Proof.
  intros Hne Hb. destruct (sum_Z_bounds l lo hi Hb) as [B1 B2].
  assert (Hn : (0 < inject_Z (Z.of_nat (List.length l)))%Q).
  { change 0%Q with (inject_Z 0). rewrite <- Zlt_Qlt.
    destruct l; [contradiction | simpl; lia]. }
  apply round_half_even_bounds.
  - apply Qle_shift_div_l; [exact Hn|].
    rewrite <- inject_Z_mult, <- Zle_Qle. lia.
  - apply Qle_shift_div_r; [exact Hn|].
    rewrite <- inject_Z_mult, <- Zle_Qle. lia.
Qed.

Lemma middle_scores_sub (l : list Z) (x : Z) : In x (middle_scores l) -> In x l.
Proof.
  unfold middle_scores. intro H.
  assert (Hx : In x (tl (sort l))).
  { destruct (tl (sort l)) as [|y t] eqn:E; [contradiction|].
    rewrite (app_removelast_last y (l := y :: t)) by discriminate.
    apply in_or_app. left. exact H. }
  apply (Permutation_in _ (sort_perm l)).
  destruct (sort l) as [|y t]; [contradiction | right; exact Hx].
Qed.

Lemma removelast_length {A} (l : list A) :
  List.length (removelast l) = (List.length l - 1)%nat.
Proof.
  destruct l as [|x t]; [reflexivity|].
  rewrite (app_removelast_last x (l := x :: t)) at 2 by discriminate.
  rewrite length_app. simpl. lia.
Qed.

Lemma sort_length (l : list Z) : List.length (sort l) = List.length l.
Proof. apply Permutation_length, sort_perm. Qed.

Lemma middle_scores_length (l : list Z) :
  List.length (middle_scores l) = (List.length l - 2)%nat.
Proof.
  unfold middle_scores. rewrite removelast_length.
  rewrite <- (sort_length l). destruct (sort l); simpl; lia.
Qed.


Lemma valid_scores_wrapped (l : list (string * list (string * Z))) (t : string) :
  valid_scores (map (fun e => Wrapped (fst e) (snd e)) l) t = [].
Proof. induction l as [|e l IH]; [reflexivity|]. exact IH. Qed.

Lemma final_scores_skip_wrapped (l : list (string * list (string * Z)))
    (extra : list score_entry) (fallback : string -> option (list (string * Z))) :
  calculate_final_scores (map (fun e => Wrapped (fst e) (snd e)) l ++ extra) fallback
  = calculate_final_scores extra fallback.
Proof.
  unfold calculate_final_scores. apply map_ext. intro t. f_equal. f_equal.
  unfold valid_scores. rewrite flat_map_app.
  change (flat_map _ (map (fun e => Wrapped (fst e) (snd e)) l))
    with (valid_scores (map (fun e => Wrapped (fst e) (snd e)) l) t).
  rewrite valid_scores_wrapped. reflexivity.
Qed.

Lemma resolve_loop_shape (dms used : list string)
    (resolve : string -> option (list (string * Z))) (data : list score_entry) :
  resolve_loop dms used resolve data = data \/
  exists m s, In m dms /\ ~ In m used /\ resolve m = Some s /\
              resolve_loop dms used resolve data = data ++ [Plain s].
Proof.
  induction dms as [|m t IH]; simpl; [left; reflexivity|].
  destruct (existsb (String.eqb m) used) eqn:U.
  - destruct IH as [IH|[m' [s [H1 [H2 [H3 H4]]]]]]; [left; exact IH|].
    right. exists m', s. auto.
  - destruct (resolve m) as [s|] eqn:R.
    + right. exists m, s. repeat split; auto.
      intro Hin. assert (existsb (String.eqb m) used = true) as C; [|congruence].
      apply existsb_exists. exists m. split; [exact Hin | apply String.eqb_refl].
    + destruct IH as [IH|[m' [s [H1 [H2 [H3 H4]]]]]]; [left; exact IH|].
      right. exists m', s. auto.
Qed.

Lemma resolve_loop_all_used (dms used : list string)
    (resolve : string -> option (list (string * Z))) (data : list score_entry) :
  (forall m, In m dms -> In m used) -> resolve_loop dms used resolve data = data.
Proof.
  induction dms as [|m t IH]; intro H; simpl; [reflexivity|].
  replace (existsb (String.eqb m) used) with true.
  - apply IH. intros m' Hm'. apply H. right. exact Hm'.
  - symmetry. apply existsb_exists. exists m.
    split; [apply H; left; reflexivity | apply String.eqb_refl].
Qed.

End SmartFacts.

Section SmartExtras.

Import Consensus Pipeline Aggregate Smart.
Open Scope Z_scope.

(** A trait is reported as disputed exactly when it is one of the five
    major traits, at least two score dicts hold it, and the spread of its
    scores (max - min) reaches the threshold; the early return for fewer
    than two dicts changes nothing. *)
Theorem detect_disputes_spec (all_scores : list (list (string * Z))) (threshold : Z)
    (trait : string) :
  (exists d, In (trait, d) (detect_major_dimension_disputes all_scores threshold)) <->
  (In trait dimensions /\ (2 <= List.length (trait_scores all_scores trait))%nat /\
   exists lo hi, list_min (trait_scores all_scores trait) = Some lo /\
                 list_max (trait_scores all_scores trait) = Some hi /\ threshold <= hi - lo).
Proof.
  unfold detect_major_dimension_disputes. split.
  - intros [d Hd].
    destruct (List.length all_scores <? 2)%nat; [contradiction|].
    apply in_flat_map in Hd as [t [Ht Hb]]. cbv zeta in Hb.
    destruct (2 <=? List.length (trait_scores all_scores t))%nat eqn:L; [|contradiction].
    destruct (list_min (trait_scores all_scores t)) as [lo|] eqn:Mn; [|contradiction].
    destruct (list_max (trait_scores all_scores t)) as [hi|] eqn:Mx; [|contradiction].
    destruct (threshold <=? hi - lo) eqn:T; [|contradiction].
    destruct Hb as [Hb|[]]. injection Hb as <- _.
    split; [exact Ht|]. split; [apply Nat.leb_le; exact L|].
    exists lo, hi. split; [exact Mn|]. split; [exact Mx|]. apply Z.leb_le. exact T.
  - intros [Ht [L [lo [hi [Mn [Mx T]]]]]].
    pose proof (trait_scores_length all_scores trait) as TL.
    replace (List.length all_scores <? 2)%nat with false
      by (symmetry; apply Nat.ltb_ge; lia).
    eexists. apply in_flat_map. exists trait. split; [exact Ht|]. cbv zeta.
    replace (2 <=? List.length (trait_scores all_scores trait))%nat with true
      by (symmetry; apply Nat.leb_le; exact L).
    rewrite Mn, Mx.
    replace (threshold <=? hi - lo) with true by (symmetry; apply Z.leb_le; exact T).
    left. reflexivity.
Qed.

(** When a trait has valid scores, its final score (the rounded mean, of
    the middle scores when there are three or more) lies between any
    bounds of those valid scores: scores on the 1-5 scale give a final
    score on the 1-5 scale. *)
Theorem final_score_within_valid_range (all_scores_data : list score_entry)
    (fallback : string -> option (list (string * Z))) (trait : string) (lo hi : Z) :
  In trait dimensions ->
  valid_scores all_scores_data trait <> [] ->
  Forall (fun v => lo <= v <= hi) (valid_scores all_scores_data trait) ->
  exists v, assoc trait (calculate_final_scores all_scores_data fallback) = Some v /\
            lo <= v <= hi.
Proof.
  intros Hd Hne Hb.
  pose proof (assoc_map_dimensions (fun t => final_trait_score
     (valid_scores all_scores_data t) (fallback t) t) trait Hd) as E.
  cbv beta in E. unfold calculate_final_scores. rewrite E.
  eexists. split; [reflexivity|].
  remember (valid_scores all_scores_data trait) as valid eqn:Ev. clear Ev E.
  destruct valid as [|x t]; [contradiction|].
  unfold final_trait_score. cbv zeta.
  destruct (3 <=? List.length (x :: t))%nat eqn:L.
  - apply Nat.leb_le in L. apply mean_bounds.
    + intro C. pose proof (middle_scores_length (x :: t)) as ML.
      rewrite C in ML. simpl in ML, L. lia.
    + apply Forall_forall. intros y Hy.
      rewrite Forall_forall in Hb. apply Hb. apply middle_scores_sub. exact Hy.
  - apply mean_bounds; [discriminate | exact Hb].
Qed.

(** Without a dispute, an item evaluated by three primary models gets,
    for each trait, the median of the three scores (the mean of the
    single middle score after dropping the highest and the lowest). *)
Theorem undisputed_item_takes_median (primary_models dispute_models : list string)
    (dispute_threshold : Z) (evaluate resolve fallback : string -> option (list (string * Z)))
    (a b c : list (string * Z)) (trait : string) (x y z : Z) :
  map snd (initial_evaluations primary_models evaluate) = [a; b; c] ->
  detect_major_dimension_disputes [a; b; c] dispute_threshold = [] ->
  In trait dimensions ->
  assoc trait a = Some x -> assoc trait b = Some y -> assoc trait c = Some z ->
  exists res v,
    process_single_question_scores primary_models dispute_models dispute_threshold
      evaluate resolve fallback = Some res /\
    assoc trait res = Some v /\ inject_Z v = median [x; y; z].
Proof.
  intros Hmap Hdet Hd Ha Hb Hc.
  unfold process_single_question_scores. cbv zeta.
  remember (initial_evaluations primary_models evaluate) as ie eqn:Eie.
  destruct ie as [|p ie]; [discriminate Hmap|].
  rewrite Hmap, Hdet.
  eexists. exists (final_trait_score [x; y; z] (fallback trait) trait).
  split; [reflexivity|]. split.
  - pose proof (assoc_map_dimensions (fun t => final_trait_score
       (valid_scores (map Plain [a; b; c]) t) (fallback t) t) trait Hd) as E.
    cbv beta in E. unfold calculate_final_scores. rewrite E.
    unfold valid_scores. cbn [flat_map map]. rewrite Ha, Hb, Hc. reflexivity.
  - unfold final_trait_score, median, middle_scores. cbv zeta.
    pose proof (sort_length [x; y; z]) as SL.
    destruct (sort [x; y; z]) as [|p1 [|p2 [|p3 [|p4 r]]]]; try discriminate SL.
    cbn [tl removelast List.length Nat.leb Nat.odd Nat.div nth sum_Z].
    unfold sum_Z. cbn [fold_left]. rewrite Z.add_0_l.
    change (Z.of_nat 1) with 1. rewrite round_half_even_int. reflexivity.
Qed.

(** Once a dispute is detected, the initial evaluations no longer count:
    they are passed on wrapped in [{'model', 'scores', ...}] entries, which
    hold no trait key, so the final scores are those of an empty score
    list (fallback evaluations) or of the single dispute resolver's dict. *)
Theorem disputed_item_ignores_initial_scores (primary_models dispute_models : list string)
    (dispute_threshold : Z) (evaluate resolve fallback : string -> option (list (string * Z))) :
  initial_evaluations primary_models evaluate <> [] ->
  detect_major_dimension_disputes (map snd (initial_evaluations primary_models evaluate))
    dispute_threshold <> [] ->
  process_single_question_scores primary_models dispute_models dispute_threshold
    evaluate resolve fallback = Some (calculate_final_scores [] fallback) \/
  exists m s, In m dispute_models /\
    ~ In m (map fst (initial_evaluations primary_models evaluate)) /\
    resolve m = Some s /\
    process_single_question_scores primary_models dispute_models dispute_threshold
      evaluate resolve fallback = Some (calculate_final_scores [Plain s] fallback).
Proof.
  intros Hne Hdis. unfold process_single_question_scores. cbv zeta.
  remember (initial_evaluations primary_models evaluate) as ie eqn:Eie.
  destruct ie as [|p ie]; [contradiction|].
  destruct (detect_major_dimension_disputes (map snd (p :: ie)) dispute_threshold)
    as [|d0 ds]; [contradiction|].
  unfold resolve_disputes_intelligently.
  destruct (resolve_loop_shape dispute_models (map fst (p :: ie)) resolve
              (map (fun e => Wrapped (fst e) (snd e)) (p :: ie)))
    as [E|[m [s [H1 [H2 [H3 E]]]]]]; rewrite E.
  - left. rewrite <- (app_nil_r (map _ (p :: ie))), final_scores_skip_wrapped.
    reflexivity.
  - right. exists m, s. repeat split; auto.
    rewrite final_scores_skip_wrapped. reflexivity.
Qed.

(** In both model configurations of [__init__] the dispute models are
    primary models.  So when all three primary models evaluate an item and
    a dispute is detected, no resolver is called and every trait gets the
    score of its fallback evaluation ([fallback_scores.get(trait, 3)], or 3
    when it raises): the three initial evaluations are discarded. *)
Theorem configured_disputed_item_uses_fallback_only (use_cloud : bool)
    (dispute_threshold : Z) (evaluate resolve fallback : string -> option (list (string * Z))) :
  let primary_models := if use_cloud then cloud_primary_models else local_primary_models in
  let dispute_models := if use_cloud then cloud_dispute_models else local_dispute_models in
  (forall m, In m primary_models -> evaluate m <> None) ->
  detect_major_dimension_disputes (map snd (initial_evaluations primary_models evaluate))
    dispute_threshold <> [] ->
  process_single_question_scores primary_models dispute_models dispute_threshold
    evaluate resolve fallback =
  Some (map (fun trait => (trait, match fallback trait with
                                  | Some scores => dict_get trait scores 3
                                  | None => 3
                                  end)) dimensions).
Proof.
  intros primary_models dispute_models Hall Hdis.
  assert (Hused : forall m, In m dispute_models ->
                  In m (map fst (initial_evaluations primary_models evaluate))).
  { intros m Hm.
    assert (Hsub : forall m, In m dispute_models -> In m primary_models)
      by (unfold dispute_models, primary_models; destruct use_cloud;
          intros m' [<-|[<-|[]]]; simpl; auto).
    apply Hsub in Hm. unfold initial_evaluations. clear Hdis Hsub.
    induction primary_models as [|m0 t IH]; [contradiction|].
    cbn [flat_map]. destruct (evaluate m0) as [s0|] eqn:E0.
    - destruct Hm as [<-|Hm]; [left; reflexivity|].
      right. apply IH; [intros m' Hm'; apply Hall; right; exact Hm' | exact Hm].
    - exfalso. apply (Hall m0); [left; reflexivity | exact E0]. }
  clearbody primary_models dispute_models.
  unfold process_single_question_scores. cbv zeta.
  remember (initial_evaluations primary_models evaluate) as ie eqn:Eie.
  destruct ie as [|p ie]; [simpl in Hdis; unfold detect_major_dimension_disputes in Hdis;
                           simpl in Hdis; contradiction|].
  destruct (detect_major_dimension_disputes (map snd (p :: ie)) dispute_threshold)
    as [|d0 ds]; [contradiction|].
  unfold resolve_disputes_intelligently.
  rewrite (resolve_loop_all_used _ _ _ _ Hused).
  rewrite <- (app_nil_r (map _ (p :: ie))), final_scores_skip_wrapped.
  reflexivity.
Qed.

Lemma final_score_within_valid_range_witness :
  exists v, assoc "extraversion"%string
    (calculate_final_scores [Plain (uniform_dict 1); Wrapped "m1" (uniform_dict 5);
                             Plain (uniform_dict 2)] (fun _ => None)) = Some v /\
    1 <= v <= 2.
Proof.
  apply final_score_within_valid_range; [simpl; auto | discriminate |].
  repeat constructor; lia.
Defined.

Lemma undisputed_item_takes_median_witness :
  exists res v,
    process_single_question_scores ["m1"; "m2"; "m3"]%string [] 3 sample_evaluate
      (fun _ => None) (fun _ => None) = Some res /\
    assoc "neuroticism"%string res = Some v /\ inject_Z v = median [3; 4; 5].
Proof.
  apply (undisputed_item_takes_median _ _ _ _ _ _
           (uniform_dict 3) (uniform_dict 4) (uniform_dict 5));
    try reflexivity; simpl; auto 8.
Defined.

Lemma disputed_item_ignores_initial_scores_witness :
  process_single_question_scores ["m1"; "m3"]%string ["m1"; "m2"]%string 2 sample_evaluate
    sample_evaluate (fun _ => None) = Some (calculate_final_scores [] (fun _ => None)) \/
  exists m s, In m ["m1"; "m2"]%string /\
    ~ In m (map fst (initial_evaluations ["m1"; "m3"]%string sample_evaluate)) /\
    sample_evaluate m = Some s /\
    process_single_question_scores ["m1"; "m3"]%string ["m1"; "m2"]%string 2 sample_evaluate
      sample_evaluate (fun _ => None) = Some (calculate_final_scores [Plain s] (fun _ => None)).
Proof.
  apply disputed_item_ignores_initial_scores; vm_compute; intro H; discriminate H.
Defined.

Lemma configured_disputed_item_uses_fallback_only_witness :
  process_single_question_scores cloud_primary_models cloud_dispute_models 2 split_evaluate
    split_evaluate (fun _ => Some (uniform_dict 4)) =
  Some (map (fun trait => (trait, match Some (uniform_dict 4) with
                                  | Some scores => dict_get trait scores 3
                                  | None => 3
                                  end)) dimensions).
Proof.
  apply (configured_disputed_item_uses_fallback_only true).
  - intros m _. unfold split_evaluate. destruct (String.eqb _ _); discriminate.
  - vm_compute. intro H. discriminate H.
Defined.

End SmartExtras.

Section SmartAverageFacts.

Import Pipeline Aggregate Typology Smart.
Open Scope Q_scope.

Lemma assoc_map_Some {A} (f : string -> A) (l : list string) (t : string) (v : A) :
  assoc t (map (fun k => (k, f k)) l) = Some v -> In t l /\ v = f t.
Proof.
  induction l as [|k l IH]; simpl; [discriminate|].
  destruct (String.eqb_spec k t) as [<-|_].
  - intro H. injection H as <-. auto.
  - intro H. destruct (IH H). auto.
Qed.

Lemma fold_Qplus_1_5 {A} (g : A -> Q) (l : list A) (acc : Q) :
  (forall x, In x l -> 1 <= g x <= 5) ->
  acc + inject_Z (Z.of_nat (List.length l)) <= fold_left (fun a x => a + g x) l acc /\
  fold_left (fun a x => a + g x) l acc <= acc + 5 * inject_Z (Z.of_nat (List.length l)).
Proof.
  revert acc. induction l as [|x l IH]; intros acc H; cbn [fold_left List.length].
  - change (inject_Z (Z.of_nat 0)) with 0. split; Lqa.lra.
  - rewrite Nat2Z.inj_succ, <- Z.add_1_r, inject_Z_plus.
    destruct (H x (or_introl eq_refl)) as [H1 H2].
    destruct (IH (acc + g x)) as [I1 I2]; [intros y Hy; apply H; right; exact Hy|].
    change (inject_Z 1) with 1. split; Lqa.lra.
Qed.

Lemma infer_mbti_unknown_iff (big5_scores : list (string * Q)) :
  infer_mbti_type big5_scores = "Unknown"%string <-> big5_scores = [].
Proof.
  destruct big5_scores as [|p t]; [split; reflexivity|].
  split; [|discriminate]. unfold infer_mbti_type. cbv zeta.
  repeat match goal with |- context [if ?b then _ else _] => destruct b end;
    discriminate.
Qed.

Lemma big5_averages_nil_iff (question_results : list question_outcome) :
  calculate_big5_averages question_results = [] <-> no_valid_result question_results.
Proof.
  unfold calculate_big5_averages, no_valid_result.
  assert (Hv : forall l : list question_outcome,
     flat_map (fun result => if success result then
                  match outcome_final_scores result with
                  | Some scores => [scores] | None => [] end else []) l = [] <->
     (forall r, In r l -> success r = false \/ outcome_final_scores r = None)).
  { induction l as [|r l IH]; simpl; [split; [intros _ r []|reflexivity]|].
    destruct (success r) eqn:S; [destruct (outcome_final_scores r) eqn:O|].
    - split; [discriminate|]. intro H. destruct (H r (or_introl eq_refl)); congruence.
    - simpl. rewrite IH. split.
      + intros H r' [<-|Hr']; [auto | apply H; exact Hr'].
      + intros H r' Hr'. apply H. right. exact Hr'.
    - simpl. rewrite IH. split.
      + intros H r' [<-|Hr']; [auto | apply H; exact Hr'].
      + intros H r' Hr'. apply H. right. exact Hr'. }
  destruct question_results as [|r0 rs]; [split; [intros _ r []|reflexivity]|].
  cbv zeta. rewrite <- Hv.
  destruct (flat_map _ (r0 :: rs)); split; (reflexivity || discriminate).
Qed.

End SmartAverageFacts.

Section SmartAverageExtras.

Import Pipeline Aggregate Typology Smart.
Open Scope Q_scope.

(** [calculate_big5_averages] returns the empty dict exactly when no
    result is both successful and carries final scores, and then (only
    then) the type inferred from it is "Unknown".  When the final scores of
    the valid results lie on the 1-5 scale, so do the averages (a missing
    trait counts as 3). *)
Theorem big5_averages_spec (question_results : list question_outcome) :
  (calculate_big5_averages question_results = [] <-> no_valid_result question_results) /\
  (infer_mbti_type (calculate_big5_averages question_results) = "Unknown"%string <->
   no_valid_result question_results) /\
  ((forall r scores t v, In r question_results -> success r = true ->
      outcome_final_scores r = Some scores -> In t dimensions -> assoc t scores = Some v ->
      1 <= v <= 5) ->
   forall t v, assoc t (calculate_big5_averages question_results) = Some v -> 1 <= v <= 5).
Proof.
  split; [apply big5_averages_nil_iff|].
  split; [rewrite infer_mbti_unknown_iff; apply big5_averages_nil_iff|].
  intros H t v Ha. unfold calculate_big5_averages in Ha.
  destruct question_results as [|r0 rs]; [discriminate|]. cbv zeta in Ha.
  set (valid := flat_map _ (r0 :: rs)) in Ha.
  assert (Hvalid : forall scores, In scores valid -> forall t v, In t dimensions ->
            assoc t scores = Some v -> 1 <= v <= 5).
  { intros scores Hs. apply in_flat_map in Hs as [r [Hr Hb]].
    destruct (success r) eqn:S; [|contradiction].
    destruct (outcome_final_scores r) as [s|] eqn:O; [|contradiction].
    destruct Hb as [<-|[]]. intros t' v'. apply (H r s t' v' Hr S O). }
  clearbody valid. destruct valid as [|s0 vs]; [discriminate|].
  apply assoc_map_Some in Ha as [Ht ->].
  set (n := inject_Z (Z.of_nat (List.length (s0 :: vs)))).
  destruct (fold_Qplus_1_5 (fun scores => match assoc t scores with
                                          | Some v => v | None => 3 end) (s0 :: vs) 0)
    as [B1 B2].
  { intros scores Hs. destruct (assoc t scores) as [v|] eqn:E.
    - exact (Hvalid scores Hs t v Ht E).
    - split; discriminate. }
  fold n in B1, B2.
  assert (Hn : 0 < n).
  { unfold n. change 0 with (inject_Z 0). rewrite <- Zlt_Qlt. simpl. lia. }
  split.
  - apply Qle_shift_div_l; [exact Hn | Lqa.lra].
  - apply Qle_shift_div_r; [exact Hn | Lqa.lra].
Qed.

End SmartAverageExtras.

Section SmartReliabilityExtras.

Import SmartReliability.
Open Scope R_scope.

Lemma consistency_term_range (scores : list Z) :
  0 <= consistency_term scores <= 0.1.
Proof.
  unfold consistency_term. destruct (2 <=? List.length scores)%nat; [|lra].
  destruct (Rlt_dec _ 0.5); [lra|]. destruct (Rlt_dec _ 1.0); lra.
Qed.

Lemma fold_consistency_ge (l : list (list Z)) (acc : R) :
  acc <= fold_left (fun a scores => a + consistency_term scores) l acc.
Proof.
  revert acc. induction l as [|s l IH]; intro acc; simpl; [lra|].
  pose proof (consistency_term_range s). specialize (IH (acc + consistency_term s)). lra.
Qed.

(** The smart pipeline's reliability lies between its base 0.5 and its
    cap 1.0, whatever the scores and counts. *)
Theorem smart_reliability_bounds (trait_valid_scores : list (list Z))
    (initial_count resolution_count : nat) :
  0.5 <= calculate_reliability_score trait_valid_scores initial_count resolution_count <= 1.
Proof.
  unfold calculate_reliability_score.
  pose proof (pos_INR initial_count). pose proof (pos_INR resolution_count).
  pose proof (fold_consistency_ge trait_valid_scores 0).
  unfold Rmin.
  repeat match goal with |- context [Rle_dec ?a ?b] => destruct (Rle_dec a b) end;
    lra.
Qed.

End SmartReliabilityExtras.

Section ImprovedTypologyExtras.

Import Typology ImprovedTypology.
Open Scope Q_scope.

(** The improved pipeline's MBTI code has five letters, never an "N" in
    second place together with a "J" in fourth place (both read the
    neuroticism score, below 2.5 and above 3.5), and does not depend on the
    openness score. *)
Theorem improved_mbti_code_shape (big5_scores : list (string * Q)) :
  String.length (calculate_mbti_type big5_scores) = 5%nat /\
  ~ (String.get 1 (calculate_mbti_type big5_scores) = Some "N"%char /\
     String.get 3 (calculate_mbti_type big5_scores) = Some "J"%char) /\
  (forall v, calculate_mbti_type (("openness_to_experience"%string, v) :: big5_scores)
             = calculate_mbti_type big5_scores).
Proof.
  split; [|split].
  - unfold calculate_mbti_type. cbv zeta.
    repeat match goal with |- context [if ?b then _ else _] => destruct b end;
      reflexivity.
  - unfold calculate_mbti_type. cbv zeta.
    destruct (Qlt_bool (trait big5_scores "neuroticism") (5 # 2)) eqn:E1;
    destruct (Qlt_bool (7 # 2) (trait big5_scores "neuroticism")) eqn:E2;
    repeat match goal with |- context [if ?b then _ else _] => destruct b end;
    try (intros [H1 H2]; cbv in H1, H2; discriminate); intros _;
    unfold Qlt_bool in E1, E2; apply negb_true_iff in E1, E2;
    assert (F1 : ~ (5 # 2 <= trait big5_scores "neuroticism"))
      by (rewrite <- Qle_bool_iff; congruence);
    assert (F2 : ~ (trait big5_scores "neuroticism" <= 7 # 2))
      by (rewrite <- Qle_bool_iff; congruence);
    apply Qnot_le_lt in F1, F2; Lqa.lra.
  - intro v. reflexivity.
Qed.

End ImprovedTypologyExtras.
